(** * aspirelt.core.app_stack: the [Aspiration] application class

  A shallow embedding of [src/aspirelt/core/app_stack.py].  The class
  assembles a middleware chain around a router, partitions the table of
  exception handlers into a top-level error handler and typed handlers,
  and rebuilds the chain whenever its configuration changes. *)

From Stdlib Require Import ZArith.
From stdpp Require Import base option list strings gmap.

Set Default Proof Using "Type".

(** ** Python dictionaries

  A [dict] iterates in insertion order and assigning to a key that is
  already present keeps that key's position.  The order matters to
  [build_middleware_stack], so a dictionary is an association list. *)

Module PyDict.
Section dict.
Context {K V : Type} `{EqDecision K}.

Definition dict : Type := list (K * V).

Definition empty : dict := [].

(** [d[k] = v] *)
Fixpoint setitem (k : K) (v : V) (d : dict) : dict :=
  match d with
  | [] => [(k, v)]
  | (k', v') :: d' =>
      if decide (k = k') then (k', v) :: d' else (k', v') :: setitem k v d'
  end.

(** [d.get(k)] *)
Fixpoint get (k : K) (d : dict) : option V :=
  match d with
  | [] => None
  | (k', v') :: d' => if decide (k = k') then Some v' else get k d'
  end.

(** [d.items()] and [d.keys()], in iteration order *)
Definition items (d : dict) : list (K * V) := d.
Definition keys (d : dict) : list K := (items d).*1.

(** [dict(d)]: a fresh dictionary filled from the items of [d] *)
Definition copy (d : dict) : dict :=
  fold_left (fun acc kv => setitem kv.1 kv.2 acc) (items d) empty.

(** Every Python dictionary holds a key once. *)
Definition wf (d : dict) : Prop := NoDup (keys d).

End dict.
Global Arguments dict : clear implicits.
End PyDict.

Import PyDict.

(** ** Data model *)

(** Python source text holds double quotes inside some literals. *)
Definition dquote : string := String (Ascii.ascii_of_nat 34) EmptyString.

(** Exception classes are compared by identity; the built-in [Exception]
    is the one the builder singles out. *)
Inductive ExceptionClass :=
  | Exception
  | ExceptionSubclass (name : string).

(** [typing.Union[int, typing.Type[Exception]]]: the keys of the
    exception-handler table. *)
Inductive HandlerKey :=
  | StatusCode (code : Z)
  | ExcClass (exc : ExceptionClass).

#[global] Instance ExceptionClass_eq_dec : EqDecision ExceptionClass.
Proof. solve_decision. Defined.

#[global] Instance HandlerKey_eq_dec : EqDecision HandlerKey.
Proof. solve_decision. Defined.

(** The classes a middleware spec can name.  The three imported from the
    framework are listed; any other class is known by its name. *)
Inductive MiddlewareClass :=
  | ServerErrorMiddleware
  | ExceptionMiddleware
  | BaseHTTPMiddleware
  | UserMiddleware (name : string).

(** What a call ends in: a returned value, or a raised exception.
    [PyException msg] is [Exception(msg)]; [PyTypeError keyword] is the
    [TypeError] of a call that got multiple values for the keyword
    argument [keyword]. *)
Inductive PyError :=
  | PyException (msg : string)
  | PyTypeError (keyword : string).

Inductive Outcome (A : Type) :=
  | Returns (a : A)
  | Raises (e : PyError).
Arguments Returns {A} a.
Arguments Raises {A} e.

#[global] Instance Outcome_ret : MRet Outcome :=
  fun A (a : A) => Returns a.

#[global] Instance Outcome_bind : MBind Outcome :=
  fun A B (k : A -> Outcome B) (o : Outcome A) =>
    match o with
    | Returns a => k a
    | Raises e => Raises e
    end.

Section Application.

(** [typing.Callable]: endpoint, handler and hook functions; and
    [typing.Any]: every other value a keyword argument may carry. *)
Variable Callable : Type.
Variable Any : Type.

(** Values of the keyword arguments a layer is constructed with. *)
Inductive OptionValue :=
  | VNone
  | VBool (b : bool)
  | VCallable (f : Callable)
  | VHandlers (handlers : dict HandlerKey Callable)
  | VAny (x : Any).

Definition Options : Type := dict string OptionValue.

(** [error_handler] starts as [None] and may become a handler. *)
Definition of_optional (h : option Callable) : OptionValue :=
  match h with
  | None => VNone
  | Some f => VCallable f
  end.

(** A middleware spec iterates as the triple [cls, options, enabled]. *)
Record Middleware := {
  cls : MiddlewareClass;
  options : Options;
  enabled : bool
}.

(** Modelled from the spec: the constructor of a middleware spec
    ([aspire.core.Core], imported as [Middleware]) is not part of the
    source file.  The spec describes the value object as a factory, its
    options and an enabled flag, and has every layer built without an
    explicit flag take part in the chain, so the flag defaults to true. *)
Definition Middleware_init (c : MiddlewareClass) (opts : Options) : Middleware :=
  {| cls := c; options := opts; enabled := true |}.

(** An ASGI application under construction: the router of the
    application ([self.router], one object for the life of the
    application, referred to and never copied), or an instance
    [cls(app=app, **options)] of a middleware class around an inner
    application. *)
Inductive ASGIApp :=
  | RouterApp
  | Layer (c : MiddlewareClass) (opts : Options) (app : ASGIApp).

(** Modelled from the spec: the router is an external collaborator
    ([aspire.core.reactor.Router]); it keeps the registered routes and
    the lifecycle hooks, and registration appends to its route list. *)
Inductive BaseRoute :=
  | Route (path : string) (endpoint : Callable)
      (methods : option (list string)) (name : option string)
      (include_in_schema : bool)
  | WebSocketRoute (path : string) (endpoint : Callable)
      (name : option string).

Record Router := {
  routes : list BaseRoute;
  on_startup : list Callable;
  on_shutdown : list Callable
}.

Definition Router_init (rs : option (list BaseRoute))
    (startup shutdown : option (list Callable)) : Router :=
  {| routes := default [] rs;
     on_startup := default [] startup;
     on_shutdown := default [] shutdown |}.

Definition Router_add_route (path : string) (endpoint : Callable)
    (methods : option (list string)) (name : option string)
    (include_in_schema : bool) (r : Router) : Router :=
  {| routes := routes r ++ [Route path endpoint methods name include_in_schema];
     on_startup := on_startup r;
     on_shutdown := on_shutdown r |}.

Definition Router_add_websocket_route (path : string) (endpoint : Callable)
    (name : option string) (r : Router) : Router :=
  {| routes := routes r ++ [WebSocketRoute path endpoint name];
     on_startup := on_startup r;
     on_shutdown := on_shutdown r |}.

(** The attributes of an [Aspiration] instance.  [state] starts as an
    empty [State()] namespace. *)
Record Aspiration := {
  _debug : bool;
  state : dict string Any;
  router : Router;
  exception_handlers : dict HandlerKey Callable;
  user_middleware : list Middleware;
  middleware_stack : ASGIApp
}.

(** ** [build_middleware_stack] *)

(** The [debug] property. *)
Definition debug (self : Aspiration) : bool := _debug self.

(** [key in (500, Exception)] *)
Definition key_in (key : HandlerKey) (t : list HandlerKey) : bool :=
  existsb (fun k => bool_decide (key = k)) t.

Definition server_error_keys : list HandlerKey :=
  [StatusCode 500; ExcClass Exception].

(** One turn of the loop over [self.exception_handlers.items()]; the
    accumulator is the pair of locals [error_handler], [exception_handlers]. *)
Definition partition_step
    (acc : option Callable * dict HandlerKey Callable)
    (item : HandlerKey * Callable)
    : option Callable * dict HandlerKey Callable :=
  let '(error_handler, handlers) := acc in
  let '(key, value) := item in
  if key_in key server_error_keys
  then (Some value, handlers)
  else (error_handler, setitem key value handlers).

Definition partition_handlers (table : dict HandlerKey Callable)
    : option Callable * dict HandlerKey Callable :=
  fold_left partition_step (items table) (None, PyDict.empty).

(** [cls(app=app, **options)].  A call that is given the keyword [app]
    and finds [app] among the unpacked options as well raises
    [TypeError] before the class is entered; otherwise the instance is
    the layer around [app]. *)
Definition construct (c : MiddlewareClass) (app : ASGIApp) (opts : Options)
    : Outcome ASGIApp :=
  if bool_decide ("app" ∈ keys opts)
  then Raises (PyTypeError "app")
  else Returns (Layer c opts app).

(** One turn of the loop over [reversed(middleware)]. *)
Definition wrap_step (app : ASGIApp) (m : Middleware) : Outcome ASGIApp :=
  if enabled m then construct (cls m) app (options m) else Returns app.

(** The loop; an exception ends it. *)
Fixpoint wrap_loop (app : ASGIApp) (ms : list Middleware) : Outcome ASGIApp :=
  match ms with
  | [] => Returns app
  | m :: ms' => app' ← wrap_step app m; wrap_loop app' ms'
  end.

Definition server_errors_spec (error_handler : option Callable) (dbg : bool)
    : Middleware :=
  Middleware_init ServerErrorMiddleware
    [("handler", of_optional error_handler); ("debug", VBool dbg)].

Definition exceptions_spec (handlers : dict HandlerKey Callable) (dbg : bool)
    : Middleware :=
  Middleware_init ExceptionMiddleware
    [("handlers", VHandlers handlers); ("debug", VBool dbg)].

(** The list [[server_errors] + self.user_middleware + [exceptions]]. *)
Definition middleware_list (self : Aspiration) : list Middleware :=
  let dbg := debug self in
  let '(error_handler, handlers) := partition_handlers (exception_handlers self) in
  [server_errors_spec error_handler dbg]
    ++ user_middleware self
    ++ [exceptions_spec handlers dbg].

Definition build_middleware_stack (self : Aspiration) : Outcome ASGIApp :=
  wrap_loop RouterApp (rev (middleware_list self)).

(** The layers of a built application from the outermost inwards: the
    order in which a request passes through them on its way to the
    router, which sits below the last of them. *)
Fixpoint layers (app : ASGIApp) : list (MiddlewareClass * Options) :=
  match app with
  | RouterApp => []
  | Layer c opts inner => (c, opts) :: layers inner
  end.

Definition layer_of (m : Middleware) : MiddlewareClass * Options :=
  (cls m, options m).


(** ** Methods

    A method runs on the instance and either returns or raises; the
    instance it leaves behind is part of the result in both cases. *)

Definition Method (A : Type) : Type := Aspiration -> Outcome A * Aspiration.

(** Attribute assignment. *)
Definition set_debug (v : bool) (self : Aspiration) : Aspiration :=
  {| _debug := v; state := state self; router := router self;
     exception_handlers := exception_handlers self;
     user_middleware := user_middleware self;
     middleware_stack := middleware_stack self |}.

Definition set_router (r : Router) (self : Aspiration) : Aspiration :=
  {| _debug := _debug self; state := state self; router := r;
     exception_handlers := exception_handlers self;
     user_middleware := user_middleware self;
     middleware_stack := middleware_stack self |}.

Definition set_exception_handlers (t : dict HandlerKey Callable)
    (self : Aspiration) : Aspiration :=
  {| _debug := _debug self; state := state self; router := router self;
     exception_handlers := t;
     user_middleware := user_middleware self;
     middleware_stack := middleware_stack self |}.

Definition set_user_middleware (l : list Middleware)
    (self : Aspiration) : Aspiration :=
  {| _debug := _debug self; state := state self; router := router self;
     exception_handlers := exception_handlers self;
     user_middleware := l;
     middleware_stack := middleware_stack self |}.

Definition set_middleware_stack (app : ASGIApp)
    (self : Aspiration) : Aspiration :=
  {| _debug := _debug self; state := state self; router := router self;
     exception_handlers := exception_handlers self;
     user_middleware := user_middleware self;
     middleware_stack := app |}.

#[global] Instance Method_ret : MRet Method :=
  fun A (a : A) self => (Returns a, self).

#[global] Instance Method_bind : MBind Method :=
  fun A B (k : A -> Method B) (m : Method A) self =>
    match m self with
    | (Returns a, self') => k a self'
    | (Raises e, self') => (Raises e, self')
    end.

Definition raise {A} (e : PyError) : Method A := fun self => (Raises e, self).

Definition modify (f : Aspiration -> Aspiration) : Method unit :=
  fun self => (Returns tt, f self).

(** A call [self.router.f(...)] on the router of the instance. *)
Definition on_router (f : Router -> Router) : Method unit :=
  modify (fun self => set_router (f (router self)) self).

(** A call [self.f(...)] of a method that reads the instance and
    returns or raises. *)
Definition calls {A} (f : Aspiration -> Outcome A) : Method A :=
  fun self => (f self, self).

(** [self.middleware_stack = self.build_middleware_stack()]: when the
    builder raises, nothing is assigned. *)
Definition rebuild : Method unit :=
  stack ← calls build_middleware_stack;
  modify (set_middleware_stack stack).

(** The constructor up to its last statement.  [middleware_stack] has
    no value until that statement, which does not read it; [RouterApp]
    fills the field until then. *)
Definition init_attributes (debug_arg : bool)
    (routes_arg : option (list BaseRoute))
    (middleware_arg : option (list Middleware))
    (exception_handlers_arg : option (dict HandlerKey Callable))
    (on_startup_arg on_shutdown_arg : option (list Callable)) : Aspiration :=
  {| _debug := debug_arg;
     state := PyDict.empty;
     router := Router_init routes_arg on_startup_arg on_shutdown_arg;
     exception_handlers :=
       match exception_handlers_arg with
       | None => PyDict.empty
       | Some t => copy t
       end;
     user_middleware := default [] middleware_arg;
     middleware_stack := RouterApp |}.

(** The constructor: the instance when the last statement returns, and
    no instance when it raises. *)
Definition __init__ (debug_arg : bool) (routes_arg : option (list BaseRoute))
    (middleware_arg : option (list Middleware))
    (exception_handlers_arg : option (dict HandlerKey Callable))
    (on_startup_arg on_shutdown_arg : option (list Callable))
    : Outcome Aspiration :=
  let self :=
    init_attributes debug_arg routes_arg middleware_arg
      exception_handlers_arg on_startup_arg on_shutdown_arg in
  match rebuild self with
  | (Returns _, self') => Returns self'
  | (Raises e, _) => Raises e
  end.

Definition debug_setter (value : bool) : Method unit :=
  modify (set_debug value);;
  rebuild.

(** [kwargs] is the dictionary the body receives: the keyword arguments
    of the call other than [middleware_class]. *)
Definition add_middleware (middleware_class : MiddlewareClass)
    (kwargs : Options) : Method unit :=
  modify (fun self =>
    set_user_middleware
      (Middleware_init middleware_class kwargs :: user_middleware self) self);;
  rebuild.

Definition add_exception_handler (exc_class_or_status_code : HandlerKey)
    (handler : Callable) : Method unit :=
  modify (fun self =>
    set_exception_handlers
      (setitem exc_class_or_status_code handler (exception_handlers self)) self);;
  rebuild.

Definition add_route (path : string) (route : Callable)
    (methods : option (list string)) (name : option string)
    (include_in_schema : bool) : Method unit :=
  on_router (Router_add_route path route methods name include_in_schema).

Definition add_websocket_route (path : string) (route : Callable)
    (name : option string) : Method unit :=
  on_router (Router_add_websocket_route path route name).

(** A decorator takes the decorated function and runs on the instance
    the registration method was called on. *)
Definition Decorator : Type := Callable -> Method Callable.

Definition exception_handler (exc_class_or_status_code : HandlerKey)
    : Method Decorator :=
  mret (fun func =>
    add_exception_handler exc_class_or_status_code func;;
    mret func).

Definition route (path : string) (methods : option (list string))
    (name : option string) (include_in_schema : bool) : Method Decorator :=
  mret (fun func =>
    on_router (Router_add_route path func methods name include_in_schema);;
    mret func).

Definition websocket_route (path : string) (name : option string)
    : Method Decorator :=
  mret (fun func =>
    on_router (Router_add_websocket_route path func name);;
    mret func).

Definition middleware_error : PyError :=
  PyException
    ("Currently only middleware(" ++ dquote ++ "http" ++ dquote
       ++ ") is supported.").

Definition middleware (middleware_type : string) : Method Decorator :=
  if negb (String.eqb middleware_type "http")
  then raise middleware_error
  else
    mret (fun func =>
      add_middleware BaseHTTPMiddleware [("dispatch", VCallable func)];;
      mret func).

(** ** The entry point

    A request scope is a dictionary object shared with the caller, so
    scopes live in a heap and are passed by reference.  What the built
    stack does with a request belongs to the framework: [asgi_call] is
    its effect on the heap, whatever it may be. *)

Inductive ScopeValue :=
  | SApp (app : Aspiration)
  | SAny (x : Any).

Definition Heap : Type := gmap positive (gmap string ScopeValue).

Variables Receive Send : Type.
Variable asgi_call : ASGIApp -> positive -> Receive -> Send -> Heap -> Heap.

(** [scope[key] = value] *)
Definition scope_setitem (scope : positive) (key : string) (value : ScopeValue)
    (h : Heap) : Heap :=
  alter (insert key value) scope h.

Definition __call__ (self : Aspiration) (scope : positive)
    (receive : Receive) (send : Send) (h : Heap) : Heap :=
  let h := scope_setitem scope "app" (SApp self) h in
  asgi_call (middleware_stack self) scope receive send h.

(** ** Reading the configuration

    The two halves of the handler table as the builder's loop sees them:
    the items under one of the server-error keys, and the rest. *)

Definition is_server_error_item (item : HandlerKey * Callable) : bool :=
  key_in item.1 server_error_keys.

Definition server_error_items (table : dict HandlerKey Callable)
    : list (HandlerKey * Callable) :=
  List.filter is_server_error_item (items table).

Definition typed_items (table : dict HandlerKey Callable)
    : list (HandlerKey * Callable) :=
  List.filter (fun item => negb (is_server_error_item item)) (items table).

(** A spec the loop can take: one that is skipped, or whose options do
    not hold the keyword [app]. *)
Definition constructible (m : Middleware) : bool :=
  negb (enabled m) || negb (bool_decide ("app" ∈ keys (options m))).

Definition buildable (l : list Middleware) : bool := forallb constructible l.

(** The nest of layers the specs of the middleware list stand for. *)
Definition stack_of (self : Aspiration) : ASGIApp :=
  foldr (fun m app => if enabled m then Layer (cls m) (options m) app else app)
    RouterApp (middleware_list self).

(** The stored stack is the one the builder makes of the current
    configuration. *)
Definition consistent (self : Aspiration) : Prop :=
  build_middleware_stack self = Returns (middleware_stack self).

(** ** Programs over the methods *)

(** The instance a call leaves behind. *)
Definition after {A} (m : Method A) (self : Aspiration) : Aspiration :=
  (m self).2.

(** The instance with the given debug flag, handler table and user list
    in place of its own, after the rebuild every mutator ends in. *)
Definition with_config (dbg : bool) (table : dict HandlerKey Callable)
    (user : list Middleware) (self : Aspiration) : Aspiration :=
  after rebuild
    {| _debug := dbg; state := state self; router := router self;
       exception_handlers := table;
       user_middleware := user;
       middleware_stack := middleware_stack self |}.

(** [add_middleware(cls, **kwargs)] called for each pair of a list, in
    list order; an exception ends the program. *)
Fixpoint add_middleware_each (specs : list (MiddlewareClass * Options))
    : Method unit :=
  match specs with
  | [] => mret tt
  | spec :: specs' =>
      add_middleware spec.1 spec.2;; add_middleware_each specs'
  end.

(** [add_exception_handler(key, handler)] called for each entry of a
    list, in list order; an exception ends the program. *)
Fixpoint add_exception_handler_each (entries : list (HandlerKey * Callable))
    : Method unit :=
  match entries with
  | [] => mret tt
  | kv :: entries' =>
      add_exception_handler kv.1 kv.2;; add_exception_handler_each entries'
  end.

(** A constructor call followed by a program on the instance it
    returns: the instance left when both return. *)
Definition init_then {A} (o : Outcome Aspiration) (m : Method A)
    : Outcome Aspiration :=
  self ← o;
  match m self with
  | (Returns _, self') => Returns self'
  | (Raises e, _) => Raises e
  end.

(** The keyword arguments a call of [add_middleware] can pass on as
    [kwargs]: the names of the parameters of the method are not among
    them. *)
Definition keyword_arguments (kwargs : Options) : Prop :=
  ("self" ∉ keys kwargs) ∧ ("middleware_class" ∉ keys kwargs).

(** The spec [add_middleware] makes of a class and its keyword
    arguments. *)
Definition spec_of (spec : MiddlewareClass * Options) : Middleware :=
  Middleware_init spec.1 spec.2.

(** The instances a program can hold: what the constructor returns, and
    what a call of a method leaves of such an instance, whether the call
    returns or raises.  The decorators act through
    [add_exception_handler], [add_middleware] and the router calls of
    [add_route] and [add_websocket_route]. *)
Inductive reachable : Aspiration -> Prop :=
  | reachable_init dbg rs mw eh startup shutdown self :
      __init__ dbg rs mw eh startup shutdown = Returns self ->
      reachable self
  | reachable_debug_setter value self :
      reachable self -> reachable (after (debug_setter value) self)
  | reachable_add_middleware middleware_class kwargs self :
      reachable self ->
      reachable (after (add_middleware middleware_class kwargs) self)
  | reachable_add_exception_handler key handler self :
      reachable self ->
      reachable (after (add_exception_handler key handler) self)
  | reachable_add_route path f methods name include_in_schema self :
      reachable self ->
      reachable (after (add_route path f methods name include_in_schema) self)
  | reachable_add_websocket_route path f name self :
      reachable self ->
      reachable (after (add_websocket_route path f name) self).

(** * Properties *)

(** ** Facts about dictionaries *)

Section dict_facts.
Context {K V : Type} `{EqDecision K}.
Implicit Types (k : K) (v : V) (d : dict K V).

Lemma keys_setitem_fresh k v d :
  k ∉ keys d → setitem k v d = d ++ [(k, v)].
Proof.
  induction d as [|[k' v'] d IH]; simpl; [done|].
  intros Hk. apply not_elem_of_cons in Hk as [Hne Hk].
  destruct (decide (k = k')) as [->|_]; [done|].
  by rewrite (IH Hk).
Qed.

Lemma keys_setitem_present k v d :
  k ∈ keys d → keys (setitem k v d) = keys d.
Proof.
  induction d as [|[k' v'] d IH]; simpl.
  - by intros ?%elem_of_nil.
  - intros Hk. destruct (decide (k = k')) as [->|Hne]; [done|].
    apply elem_of_cons in Hk as [?|Hk]; [done|].
    unfold keys, items in *. simpl. f_equal. by apply IH.
Qed.

Lemma wf_setitem k v d : wf d → wf (setitem k v d).
Proof.
  unfold wf. intros Hd. destruct (decide (k ∈ keys d)) as [Hin|Hnin].
  - by rewrite keys_setitem_present.
  - rewrite keys_setitem_fresh by done.
    unfold keys, items in *. rewrite fmap_app. simpl.
    apply NoDup_app. split_and!; [done| |apply NoDup_singleton].
    intros x Hx ->%list_elem_of_singleton. done.
Qed.

Lemma get_setitem_eq k v d : get k (setitem k v d) = Some v.
Proof.
  induction d as [|[k' v'] d IH]; simpl.
  - by rewrite decide_True.
  - destruct (decide (k = k')) as [->|Hne]; simpl.
    + by rewrite decide_True.
    + by rewrite decide_False.
Qed.

Lemma get_setitem_ne k k' v d : k ≠ k' → get k' (setitem k v d) = get k' d.
Proof.
  intros Hne. induction d as [|[k0 v0] d IH]; simpl.
  - by rewrite decide_False.
  - destruct (decide (k = k0)) as [->|Hne0]; simpl.
    + by rewrite !decide_False.
    + by rewrite IH.
Qed.

Lemma get_None k d : get k d = None ↔ k ∉ keys d.
Proof.
  induction d as [|[k' v'] d IH]; simpl.
  - split; [intros _; apply not_elem_of_nil|done].
  - unfold keys, items in *. simpl. rewrite not_elem_of_cons.
    destruct (decide (k = k')) as [->|Hne].
    + split; [done|]. by intros [? _].
    + rewrite IH. split; [done|]. by intros [_ ?].
Qed.

Lemma get_Some_elem_of k v d : get k d = Some v → (k, v) ∈ items d.
Proof.
  induction d as [|[k' v'] d IH]; simpl; [done|].
  destruct (decide (k = k')) as [->|Hne].
  - intros [= ->]. apply elem_of_cons. by left.
  - intros H. apply elem_of_cons. right. by apply IH.
Qed.

Lemma elem_of_get k v d : wf d → (k, v) ∈ items d → get k d = Some v.
Proof.
  unfold wf, keys, items.
  induction d as [|[k' v'] d IH]; simpl.
  - by intros _ ?%elem_of_nil.
  - intros [Hk' Hd]%NoDup_cons [Heq|Hin]%elem_of_cons.
    + injection Heq as -> ->. by rewrite decide_True.
    + destruct (decide (k = k')) as [->|Hne]; [|by apply IH].
      exfalso. apply Hk'. apply (list_elem_of_fmap_2 fst) in Hin. done.
Qed.

(** Filling a dictionary from a duplicate-free list of items keeps the
    list as it is. *)
Lemma fold_setitem_fresh (l : list (K * V)) (acc : dict K V) :
  NoDup (acc.*1 ++ l.*1) →
  fold_left (fun acc kv => setitem kv.1 kv.2 acc) l acc = acc ++ l.
Proof.
  revert acc. induction l as [|[k v] l IH]; intros acc Hnd; simpl.
  - by rewrite app_nil_r.
  - assert (k ∉ keys acc) as Hk.
    { apply NoDup_app in Hnd as (_ & Hdisj & _). intros Hin.
      apply (Hdisj k Hin). simpl. apply elem_of_cons. by left. }
    rewrite keys_setitem_fresh by done.
    rewrite IH.
    + by rewrite <- app_assoc.
    + rewrite fmap_app. simpl. rewrite <- app_assoc. done.
Qed.

Lemma copy_wf_id d : wf d → copy d = d.
Proof.
  intros Hd. unfold copy. rewrite fold_setitem_fresh; [done|].
  simpl. done.
Qed.

Lemma wf_fold_setitem (l : list (K * V)) (acc : dict K V) :
  wf acc → wf (fold_left (fun acc kv => setitem kv.1 kv.2 acc) l acc).
Proof.
  revert acc. induction l as [|[k v] l IH]; intros acc Hacc; simpl; [done|].
  apply IH. by apply wf_setitem.
Qed.

Lemma wf_copy d : wf (copy d).
Proof. apply wf_fold_setitem. apply NoDup_nil_2. Qed.


Lemma NoDup_keys_filter (f : K * V -> bool) (l : list (K * V)) :
  NoDup l.*1 → NoDup (List.filter f l).*1.
Proof.
  induction l as [|[k v] l IH]; simpl; [done|].
  intros [Hk Hl]%NoDup_cons. destruct (f (k, v)); simpl; [|by apply IH].
  apply NoDup_cons. split; [|by apply IH].
  intros [[k' v'] [Hfst Hin]]%list_elem_of_fmap_1. simpl in Hfst. subst k'.
  apply Hk. apply list_elem_of_In, filter_In in Hin as [Hin _].
  apply list_elem_of_In in Hin. by apply (list_elem_of_fmap_2 fst) in Hin.
Qed.

(** Looking a key up among the items a test on keys lets through. *)
Lemma get_filter_keys (p : K -> bool) k d :
  get k (List.filter (fun kv => p kv.1) d) = if p k then get k d else None.
Proof.
  induction d as [|[k' v'] d IH]; simpl.
  - by destruct (p k).
  - destruct (p k') eqn:Hp'; simpl.
    + destruct (decide (k = k')) as [->|Hne]; [by rewrite Hp'|done].
    + rewrite IH. destruct (decide (k = k')) as [->|Hne]; [by rewrite Hp'|done].
Qed.

End dict_facts.

Section dict_update_facts.
Context {K V : Type} `{EqDecision K}.
Implicit Types (k : K) (v : V) (d : dict K V).

Lemma setitem_setitem k v1 v2 d :
  setitem k v2 (setitem k v1 d) = setitem k v2 d.
Proof.
  induction d as [|[k' v'] d IH]; simpl.
  - by rewrite decide_True.
  - destruct (decide (k = k')) as [->|Hne]; simpl.
    + by rewrite decide_True.
    + rewrite decide_False by done. by rewrite IH.
Qed.

Lemma setitem_split k v v0 (l1 l2 : list (K * V)) :
  k ∉ l1.*1 → setitem k v (l1 ++ (k, v0) :: l2) = l1 ++ (k, v) :: l2.
Proof.
  induction l1 as [|[k' v'] l1 IH]; simpl.
  - intros _. by rewrite decide_True.
  - intros [Hne Hk]%not_elem_of_cons.
    rewrite decide_False by done. by rewrite IH.
Qed.

Lemma filter_setitem_other (p : K → bool) k v d :
  p k = false →
  List.filter (fun kv => p kv.1) (setitem k v d) =
    List.filter (fun kv => p kv.1) d.
Proof.
  intros Hp. induction d as [|[k' v'] d IH]; simpl.
  - by rewrite Hp.
  - destruct (decide (k = k')) as [->|Hne]; simpl.
    + by rewrite Hp.
    + by rewrite IH.
Qed.

End dict_update_facts.

(** ** The builder *)

Lemma partition_fold (l : list (HandlerKey * Callable))
    (eh : option Callable) (th : dict HandlerKey Callable) :
  fold_left partition_step l (eh, th) =
  (match last (List.filter is_server_error_item l) with
   | Some item => Some item.2
   | None => eh
   end,
   fold_left (fun acc kv => setitem kv.1 kv.2 acc)
     (List.filter (fun item => negb (is_server_error_item item)) l) th).
Proof.
  revert eh th. induction l as [|[k v] l IH]; intros eh th; [done|].
  cbn [fold_left List.filter].
  replace (partition_step (eh, th) (k, v)) with
    (if is_server_error_item (k, v) then (Some v, th)
     else (eh, setitem k v th)) by done.
  destruct (is_server_error_item (k, v)); cbn [negb]; rewrite IH; [|done].
  rewrite last_cons. by destruct (last (List.filter _ l)).
Qed.

Lemma partition_handlers_wf (table : dict HandlerKey Callable) :
  wf table →
  partition_handlers table =
    (snd <$> last (server_error_items table), typed_items table).
Proof.
  intros Hwf. unfold partition_handlers. rewrite partition_fold.
  unfold server_error_items, typed_items, items. f_equal.
  rewrite fold_setitem_fresh; [done|]. simpl.
  by apply NoDup_keys_filter.
Qed.

Lemma middleware_list_eq (self : Aspiration) :
  middleware_list self =
    [server_errors_spec (partition_handlers (exception_handlers self)).1
       (debug self)]
    ++ user_middleware self
    ++ [exceptions_spec (partition_handlers (exception_handlers self)).2
          (debug self)].
Proof.
  unfold middleware_list.
  by destruct (partition_handlers (exception_handlers self)).
Qed.

Lemma wrap_loop_app (app : ASGIApp) (l1 l2 : list Middleware) :
  wrap_loop app (l1 ++ l2) = app' ← wrap_loop app l1; wrap_loop app' l2.
Proof.
  revert app. induction l1 as [|m l1 IH]; intros app; simpl; [done|].
  destruct (wrap_step app m) as [app'|e]; simpl; [apply IH|done].
Qed.

(** The loop over the reversed list is a fold from the right, the
    router innermost. *)
Lemma wrap_loop_rev (app : ASGIApp) (l : list Middleware) :
  wrap_loop app (rev l) =
    foldr (fun m acc => inner ← acc; wrap_step inner m) (Returns app) l.
Proof.
  induction l as [|m l IH]; simpl; [done|].
  rewrite wrap_loop_app, IH.
  destruct (foldr _ _ l) as [inner|e]; simpl; [|done].
  by destruct (wrap_step inner m).
Qed.

(** The loop returns the nest when every spec can be taken, and raises
    the [TypeError] of the keyword [app] otherwise. *)
Lemma foldr_wrap_step (app : ASGIApp) (l : list Middleware) :
  foldr (fun m acc => inner ← acc; wrap_step inner m) (Returns app) l =
    if buildable l
    then Returns
           (foldr (fun m inner =>
                     if enabled m then Layer (cls m) (options m) inner
                     else inner) app l)
    else Raises (PyTypeError "app").
Proof.
  induction l as [|m l IH]; simpl; [done|].
  rewrite IH. unfold constructible, wrap_step, construct.
  destruct (buildable l); simpl.
  - destruct (enabled m); simpl; [|done].
    by destruct (bool_decide ("app" ∈ keys (options m))).
  - by rewrite andb_false_r.
Qed.

Lemma buildable_cons (m : Middleware) (l : list Middleware) :
  buildable (m :: l) = constructible m && buildable l.
Proof. reflexivity. Qed.

Lemma buildable_app (l1 l2 : list Middleware) :
  buildable (l1 ++ l2) = buildable l1 && buildable l2.
Proof. apply forallb_app. Qed.

Lemma buildable_middleware_list (self : Aspiration) :
  buildable (middleware_list self) = buildable (user_middleware self).
Proof.
  rewrite middleware_list_eq, !buildable_app. simpl.
  by rewrite andb_true_r.
Qed.

Lemma build_outcome (self : Aspiration) :
  build_middleware_stack self =
    if buildable (user_middleware self)
    then Returns (stack_of self)
    else Raises (PyTypeError "app").
Proof.
  unfold build_middleware_stack.
  by rewrite wrap_loop_rev, foldr_wrap_step, buildable_middleware_list.
Qed.

Lemma build_returns (self : Aspiration) (stack : ASGIApp) :
  build_middleware_stack self = Returns stack ↔
  buildable (user_middleware self) = true ∧ stack = stack_of self.
Proof.
  rewrite build_outcome. destruct (buildable (user_middleware self)).
  - split; [by intros [= <-]|by intros [_ ->]].
  - split; [done|by intros [? _]].
Qed.

Lemma buildable_Forall (l : list Middleware) :
  buildable l = true ↔
  Forall (fun m => enabled m = true → "app" ∉ keys (options m)) l.
Proof.
  unfold buildable. rewrite forallb_forall, Forall_forall.
  unfold constructible.
  split; intros H m Hin.
  - intros Hm. apply list_elem_of_In in Hin. specialize (H m Hin).
    rewrite Hm in H. simpl in H. apply negb_true_iff in H.
    by apply bool_decide_eq_false in H.
  - apply list_elem_of_In in Hin. specialize (H m Hin).
    destruct (enabled m); simpl; [|done].
    apply negb_true_iff, bool_decide_eq_false. by apply H.
Qed.

Lemma layers_foldr (l : list Middleware) :
  layers (foldr (fun m inner =>
                   if enabled m then Layer (cls m) (options m) inner
                   else inner) RouterApp l) =
    layer_of <$> List.filter enabled l.
Proof.
  induction l as [|m l IH]; simpl; [done|].
  destruct (enabled m); simpl; by rewrite IH.
Qed.

Lemma layers_stack_of (self : Aspiration) :
  layers (stack_of self) =
    layer_of (server_errors_spec
                (partition_handlers (exception_handlers self)).1 (debug self))
    :: (layer_of <$> List.filter enabled (user_middleware self))
    ++ [layer_of (exceptions_spec
                    (partition_handlers (exception_handlers self)).2
                    (debug self))].
Proof.
  unfold stack_of. rewrite layers_foldr, middleware_list_eq.
  by rewrite !List.filter_app, !fmap_app.
Qed.

Lemma layers_build (self : Aspiration) (stack : ASGIApp) :
  build_middleware_stack self = Returns stack →
  layers stack =
    layer_of (server_errors_spec
                (partition_handlers (exception_handlers self)).1 (debug self))
    :: (layer_of <$> List.filter enabled (user_middleware self))
    ++ [layer_of (exceptions_spec
                    (partition_handlers (exception_handlers self)).2
                    (debug self))].
Proof. intros [_ ->]%build_returns. apply layers_stack_of. Qed.

Lemma filter_enabled_all (l : list Middleware) :
  Forall (fun m => enabled m = true) l → List.filter enabled l = l.
Proof.
  induction 1 as [|m l Hm _ IH]; simpl; [done|]. by rewrite Hm, IH.
Qed.

(** What the rebuild leaves: the new stack, or on an exception the
    instance as it was. *)
Lemma rebuild_outcome (self : Aspiration) :
  rebuild self =
    if buildable (user_middleware self)
    then (Returns tt, set_middleware_stack (stack_of self) self)
    else (Raises (PyTypeError "app"), self).
Proof.
  unfold rebuild, calls, mbind, Method_bind. rewrite build_outcome.
  by destruct (buildable (user_middleware self)).
Qed.

Lemma consistent_buildable (self : Aspiration) :
  consistent self → buildable (user_middleware self) = true.
Proof. by intros [? _]%build_returns. Qed.

(** C1: for every configuration the builder assembles the list
    [server-error spec] + user middleware + [typed-exception spec], and
    folds it from the right starting at the router.  It returns a stack
    exactly when no enabled user spec holds the keyword [app] among its
    options (the call [cls(app=app, **options)] raises otherwise), and
    the layers of the stack it returns, outermost first, are the enabled
    specs of that list in list order.  For a user list [m1; m2; m3] of
    enabled specs it returns server-error around m1 around m2 around m3
    around typed-exception around the router. *)
Theorem build_middleware_stack_order (self : Aspiration) :
  let server_errors :=
    server_errors_spec (partition_handlers (exception_handlers self)).1
      (debug self) in
  let exceptions :=
    exceptions_spec (partition_handlers (exception_handlers self)).2
      (debug self) in
  middleware_list self = [server_errors] ++ user_middleware self ++ [exceptions]
  ∧ build_middleware_stack self =
      foldr (fun m acc => inner ← acc; wrap_step inner m)
        (Returns RouterApp) (middleware_list self)
  ∧ ((∃ stack, build_middleware_stack self = Returns stack) ↔
     Forall (fun m => enabled m = true → "app" ∉ keys (options m))
       (user_middleware self))
  ∧ (∀ stack,
       build_middleware_stack self = Returns stack →
       layers stack =
         layer_of server_errors
         :: (layer_of <$> List.filter enabled (user_middleware self))
         ++ [layer_of exceptions])
  ∧ (∀ stack,
       build_middleware_stack self = Returns stack →
       Forall (fun m => enabled m = true) (user_middleware self) →
       layers stack =
         layer_of server_errors
         :: (layer_of <$> user_middleware self)
         ++ [layer_of exceptions])
  ∧ ∀ m1 m2 m3,
      user_middleware self = [m1; m2; m3] →
      enabled m1 = true → enabled m2 = true → enabled m3 = true →
      "app" ∉ keys (options m1) →
      "app" ∉ keys (options m2) →
      "app" ∉ keys (options m3) →
      build_middleware_stack self =
        Returns
          (Layer ServerErrorMiddleware (options server_errors)
             (Layer (cls m1) (options m1)
                (Layer (cls m2) (options m2)
                   (Layer (cls m3) (options m3)
                      (Layer ExceptionMiddleware (options exceptions)
                         RouterApp))))).
Proof.
  intros server_errors exceptions. split_and!.
  - apply middleware_list_eq.
  - apply wrap_loop_rev.
  - rewrite <- buildable_Forall. split.
    + by intros [stack [? _]%build_returns].
    + intros Hb. exists (stack_of self). by apply build_returns.
  - apply layers_build.
  - intros stack Hstack Hall.
    by rewrite (layers_build _ _ Hstack), filter_enabled_all.
  - intros m1 m2 m3 Hum H1 H2 H3 Ha1 Ha2 Ha3.
    apply build_returns. split.
    + apply buildable_Forall. rewrite Hum. by repeat constructor.
    + unfold stack_of. rewrite middleware_list_eq, Hum. simpl.
      by rewrite H1, H2, H3.
Qed.

(** C5: a spec whose enabled flag is false adds no layer.  What the
    builder does with a user list holding such a spec is what it does
    with the list without it, and the layers of the stack it returns are
    the enabled specs before it followed by the enabled specs after it,
    between the two fixed layers. *)
Theorem disabled_middleware_skipped (self : Aspiration)
    (l1 l2 : list Middleware) (m : Middleware) :
  user_middleware self = l1 ++ m :: l2 →
  enabled m = false →
  build_middleware_stack self =
    build_middleware_stack (set_user_middleware (l1 ++ l2) self)
  ∧ ∀ stack,
      build_middleware_stack self = Returns stack →
      layers stack =
        layer_of (server_errors_spec
                    (partition_handlers (exception_handlers self)).1
                    (debug self))
        :: (layer_of <$> List.filter enabled l1)
        ++ (layer_of <$> List.filter enabled l2)
        ++ [layer_of (exceptions_spec
                        (partition_handlers (exception_handlers self)).2
                        (debug self))].
Proof.
  intros Hum Hm. split.
  - rewrite !build_outcome. cbn [user_middleware set_user_middleware].
    rewrite Hum, !buildable_app, buildable_cons.
    unfold constructible at 1. rewrite Hm. cbn [negb orb andb].
    destruct (buildable l1 && buildable l2); [|done]. f_equal.
    unfold stack_of. rewrite !middleware_list_eq.
    cbn [user_middleware set_user_middleware debug _debug exception_handlers].
    rewrite Hum. simpl. rewrite !foldr_app. simpl. by rewrite Hm.
  - intros stack Hstack.
    rewrite (layers_build _ _ Hstack), Hum, List.filter_app. simpl.
    rewrite Hm. by rewrite fmap_app, <- app_assoc.
Qed.

(** C3: [add_middleware] puts the new spec at the front of the user
    list and rebuilds.  The call returns exactly when neither the new
    keyword arguments nor an enabled spec of the earlier list hold the
    keyword [app]; when it returns, the new layer sits right under the
    server-error layer and above every layer of the earlier user list.
    Adding to a list [m1; m2] of enabled specs gives server-error around
    the new layer around m1 around m2 around typed-exception around the
    router. *)
Theorem add_middleware_front (middleware_class : MiddlewareClass)
    (kwargs : Options) (self : Aspiration) :
  let self' := (add_middleware middleware_class kwargs self).2 in
  let server_errors :=
    server_errors_spec (partition_handlers (exception_handlers self)).1
      (debug self) in
  let exceptions :=
    exceptions_spec (partition_handlers (exception_handlers self)).2
      (debug self) in
  user_middleware self' =
    Middleware_init middleware_class kwargs :: user_middleware self
  ∧ ((add_middleware middleware_class kwargs self).1 = Returns tt ↔
     ("app" ∉ keys kwargs)
     ∧ Forall (fun m => enabled m = true → "app" ∉ keys (options m))
         (user_middleware self))
  ∧ ((add_middleware middleware_class kwargs self).1 = Returns tt →
     layers (middleware_stack self') =
       layer_of server_errors
       :: (middleware_class, kwargs)
       :: (layer_of <$> List.filter enabled (user_middleware self))
       ++ [layer_of exceptions])
  ∧ ∀ m1 m2,
      user_middleware self = [m1; m2] →
      enabled m1 = true → enabled m2 = true →
      "app" ∉ keys kwargs →
      "app" ∉ keys (options m1) →
      "app" ∉ keys (options m2) →
      (add_middleware middleware_class kwargs self).1 = Returns tt
      ∧ middleware_stack self' =
          Layer ServerErrorMiddleware (options server_errors)
            (Layer middleware_class kwargs
               (Layer (cls m1) (options m1)
                  (Layer (cls m2) (options m2)
                     (Layer ExceptionMiddleware (options exceptions)
                        RouterApp)))).
Proof.
  intros self' server_errors exceptions.
  assert (add_middleware middleware_class kwargs self =
          rebuild (set_user_middleware
                     (Middleware_init middleware_class kwargs
                      :: user_middleware self) self)) as Hadd by reflexivity.
  unfold self'. rewrite Hadd, rebuild_outcome.
  cbn [user_middleware set_user_middleware].
  assert (buildable (Middleware_init middleware_class kwargs
                     :: user_middleware self) = true ↔
          ("app" ∉ keys kwargs)
          ∧ Forall (fun m => enabled m = true → "app" ∉ keys (options m))
              (user_middleware self)) as Hb.
  { rewrite buildable_Forall, Forall_cons. simpl. tauto. }
  destruct (buildable (Middleware_init middleware_class kwargs
                       :: user_middleware self)) eqn:Hbuild.
  - split_and!; [done| | |].
    + split; [intros _; by apply Hb|done].
    + intros _. cbn [snd middleware_stack set_middleware_stack].
      by rewrite layers_stack_of.
    + intros m1 m2 Hum H1 H2 Ha Ha1 Ha2. split; [done|].
      cbn [snd middleware_stack set_middleware_stack].
      unfold stack_of. rewrite middleware_list_eq.
      cbn [user_middleware set_user_middleware]. rewrite Hum. simpl.
      by rewrite H1, H2.
  - split_and!; [done| | |].
    + split; [done|]. intros H. apply (proj2 Hb) in H. congruence.
    + done.
    + intros m1 m2 Hum H1 H2 Ha Ha1 Ha2. exfalso.
      assert (false = true) as Hcontra; [|done].
      apply Hb. split; [done|]. rewrite Hum. by repeat constructor.
Qed.

(** Every instance a program can hold has a handler table with each key
    once, and stores the stack of its configuration whenever that
    configuration can be built. *)
Lemma reachable_invariant (self : Aspiration) :
  reachable self →
  wf (exception_handlers self)
  ∧ (buildable (user_middleware self) = true → consistent self).
Proof.
  induction 1 as [dbg rs mw eh startup shutdown self Hinit
                 |value self _ [Hwf Hc]
                 |middleware_class kwargs self _ [Hwf Hc]
                 |key handler self _ [Hwf Hc]
                 |path f methods name include_in_schema self _ [Hwf Hc]
                 |path f name self _ [Hwf Hc]].
  - unfold __init__ in Hinit. rewrite rebuild_outcome in Hinit.
    destruct (buildable _) eqn:Hb; [|done]. injection Hinit as <-.
    split.
    + destruct eh as [t|]; simpl; [apply wf_copy|apply NoDup_nil_2].
    + intros _. apply build_returns. done.
  - unfold after.
    change (debug_setter value self) with (rebuild (set_debug value self)).
    rewrite rebuild_outcome. cbn [user_middleware set_debug].
    destruct (buildable (user_middleware self)) eqn:Hb.
    + split; [exact Hwf|]. intros _. by apply build_returns.
    + split; [exact Hwf|]. intros Hb'.
      change (buildable (user_middleware self) = true) in Hb'. congruence.
  - unfold after.
    change (add_middleware middleware_class kwargs self) with
      (rebuild (set_user_middleware
                  (Middleware_init middleware_class kwargs
                   :: user_middleware self) self)).
    rewrite rebuild_outcome. cbn [user_middleware set_user_middleware].
    destruct (buildable (_ :: user_middleware self)) eqn:Hb.
    + split; [exact Hwf|]. intros _. by apply build_returns.
    + split; [exact Hwf|]. intros Hb'.
      change (buildable (Middleware_init middleware_class kwargs
                         :: user_middleware self) = true) in Hb'.
      congruence.
  - unfold after.
    change (add_exception_handler key handler self) with
      (rebuild (set_exception_handlers
                  (setitem key handler (exception_handlers self)) self)).
    rewrite rebuild_outcome. cbn [user_middleware set_exception_handlers].
    destruct (buildable (user_middleware self)) eqn:Hb.
    + split; [by apply wf_setitem|]. intros _. by apply build_returns.
    + split; [by apply wf_setitem|]. intros Hb'.
      change (buildable (user_middleware self) = true) in Hb'. congruence.
  - split; [exact Hwf|exact Hc].
  - split; [exact Hwf|exact Hc].
Qed.

Lemma rebuild_returns (self : Aspiration) :
  ((rebuild self).1 = Returns tt ↔ buildable (user_middleware self) = true)
  ∧ ((rebuild self).1 = Returns tt → consistent (rebuild self).2).
Proof.
  rewrite rebuild_outcome.
  destruct (buildable (user_middleware self)) eqn:Hb; simpl.
  - split; [done|]. intros _. by apply build_returns.
  - split; [|done]. split; intros; done.
Qed.

(** C2: each of the mutators (the debug setter, [add_exception_handler],
    [add_middleware]) changes its attribute and rebuilds; it returns
    exactly when the user list it leaves can be built, and when it
    returns the stored stack is the one the builder makes of the debug
    flag, handler table and middleware list now stored, whatever the
    stack was before.  The constructor returns such an instance too, and
    in no instance a program can hold does the stored stack differ from
    what the builder returns for the instance. *)
Theorem middleware_stack_consistent :
  (∀ value self,
     debug (debug_setter value self).2 = value
     ∧ ((debug_setter value self).1 = Returns tt ↔
        buildable (user_middleware self) = true)
     ∧ ((debug_setter value self).1 = Returns tt →
        consistent (debug_setter value self).2))
  ∧ (∀ key handler self,
       exception_handlers (add_exception_handler key handler self).2 =
         setitem key handler (exception_handlers self)
       ∧ ((add_exception_handler key handler self).1 = Returns tt ↔
          buildable (user_middleware self) = true)
       ∧ ((add_exception_handler key handler self).1 = Returns tt →
          consistent (add_exception_handler key handler self).2))
  ∧ (∀ middleware_class kwargs self,
       ((add_middleware middleware_class kwargs self).1 = Returns tt ↔
        buildable (Middleware_init middleware_class kwargs
                   :: user_middleware self) = true)
       ∧ ((add_middleware middleware_class kwargs self).1 = Returns tt →
          consistent (add_middleware middleware_class kwargs self).2))
  ∧ (∀ dbg rs mw eh startup shutdown,
       ((∃ self, __init__ dbg rs mw eh startup shutdown = Returns self) ↔
        buildable (default [] mw) = true)
       ∧ ∀ self,
           __init__ dbg rs mw eh startup shutdown = Returns self →
           consistent self)
  ∧ (∀ self,
       reachable self →
       ∀ stack,
         build_middleware_stack self = Returns stack →
         middleware_stack self = stack).
Proof.
  split_and!.
  - intros value self.
    change (debug_setter value self) with (rebuild (set_debug value self)).
    split; [|exact (rebuild_returns (set_debug value self))].
    rewrite rebuild_outcome. by destruct (buildable _).
  - intros key handler self.
    change (add_exception_handler key handler self) with
      (rebuild (set_exception_handlers
                  (setitem key handler (exception_handlers self)) self)).
    split; [|exact (rebuild_returns (set_exception_handlers _ self))].
    rewrite rebuild_outcome. by destruct (buildable _).
  - intros middleware_class kwargs self.
    change (add_middleware middleware_class kwargs self) with
      (rebuild (set_user_middleware
                  (Middleware_init middleware_class kwargs
                   :: user_middleware self) self)).
    exact (rebuild_returns (set_user_middleware _ self)).
  - intros dbg rs mw eh startup shutdown. unfold __init__.
    rewrite rebuild_outcome.
    change (user_middleware (init_attributes dbg rs mw eh startup shutdown))
      with (default [] mw).
    destruct (buildable (default [] mw)) eqn:Hb.
    + split; [split; [done|eauto]|]. intros self [= <-].
      by apply build_returns.
    + split; [|done]. split; [by intros [? ?]|done].
  - intros self [_ Hc]%reachable_invariant stack Hstack.
    pose proof (proj1 (build_returns _ _) Hstack) as [Hb _].
    specialize (Hc Hb). unfold consistent in Hc. congruence.
Qed.

(** ** The handler table *)

Lemma key_in_server_error_keys (key : HandlerKey) :
  key_in key server_error_keys = true ↔
  key = StatusCode 500 ∨ key = ExcClass Exception.
Proof.
  unfold key_in, server_error_keys. simpl.
  rewrite orb_false_r, orb_true_iff, !bool_decide_eq_true. done.
Qed.

Lemma filter_none {A} (f : A -> bool) (l : list A) :
  Forall (fun x => f x = false) l → List.filter f l = [].
Proof.
  induction 1 as [|x l Hx _ IH]; simpl; [done|]. by rewrite Hx.
Qed.

Lemma filter_all {A} (f : A -> bool) (l : list A) :
  Forall (fun x => f x = false) l →
  List.filter (fun x => negb (f x)) l = l.
Proof.
  induction 1 as [|x l Hx _ IH]; simpl; [done|]. by rewrite Hx, IH.
Qed.

(** What the builder does depends on the handler table through its
    partition only. *)
Lemma build_same_partition (self : Aspiration)
    (table : dict HandlerKey Callable) :
  partition_handlers table = partition_handlers (exception_handlers self) →
  build_middleware_stack (set_exception_handlers table self) =
    build_middleware_stack self.
Proof.
  intros Hp. unfold build_middleware_stack, middleware_list. simpl.
  by rewrite Hp.
Qed.

(** In a table holding two entries under server-error keys, those are the
    two server-error keys and no other entry is under one. *)
Lemma two_server_error_entries (l1 l2 l3 : list (HandlerKey * Callable))
    (ka kb : HandlerKey) (ha hb : Callable) :
  wf (l1 ++ (ka, ha) :: l2 ++ (kb, hb) :: l3) →
  key_in ka server_error_keys = true →
  key_in kb server_error_keys = true →
  (ka = StatusCode 500 ∧ kb = ExcClass Exception
   ∨ ka = ExcClass Exception ∧ kb = StatusCode 500)
  ∧ Forall (fun item => is_server_error_item item = false) (l1 ++ l2 ++ l3).
Proof.
  unfold wf, keys, items. rewrite !fmap_app, !fmap_cons, fmap_app, fmap_cons.
  simpl. intros Hnd Ha Hb.
  apply NoDup_app in Hnd as (_ & Hl1 & Hnd).
  apply NoDup_cons in Hnd as (Hka & Hnd).
  apply NoDup_app in Hnd as (_ & Hl2 & Hnd).
  apply NoDup_cons in Hnd as (Hkb & _).
  assert (ka ≠ kb) as Hab.
  { intros ->. apply Hka. apply elem_of_app. right. apply elem_of_cons. by left. }
  assert (∀ item, item ∈ l1 ++ l2 ++ l3 → item.1 ≠ ka ∧ item.1 ≠ kb) as Hother.
  { intros [k v] Hin. simpl.
    apply elem_of_app in Hin as [Hin|Hin];
      [|apply elem_of_app in Hin as [Hin|Hin]];
      apply (list_elem_of_fmap_2 fst) in Hin; simpl in Hin.
    - specialize (Hl1 k Hin). split; intros ->; apply Hl1.
      + apply elem_of_cons. by left.
      + apply elem_of_cons. right. apply elem_of_app. right.
        apply elem_of_cons. by left.
    - split; intros ->.
      + apply Hka. apply elem_of_app. by left.
      + apply (Hl2 kb Hin). apply elem_of_cons. by left.
    - split; intros ->.
      + apply Hka. apply elem_of_app. right. apply elem_of_cons. by right.
      + by apply Hkb. }
  apply key_in_server_error_keys in Ha, Hb.
  split.
  - destruct Ha as [-> | ->], Hb as [-> | ->]; tauto.
  - apply Forall_forall. intros item Hin.
    destruct (Hother item Hin) as [Hna Hnb].
    unfold is_server_error_item.
    destruct (key_in item.1 server_error_keys) eqn:Hk; [|done].
    apply key_in_server_error_keys in Hk.
    destruct Ha as [-> | ->], Hb as [-> | ->], Hk as [Hk | Hk]; congruence.
Qed.

(** C4, as the code has it: every entry under a server-error key (the
    status code 500 or the class [Exception]) is left out of the typed
    table handed to the typed-exception layer, every entry under any
    other key stays in it, in order; the handler of the last entry under
    a server-error key, the only one when one such key is registered, is
    the error handler handed to the outermost server-error layer of the
    stack the builder returns. *)
Theorem handler_table_partition (self : Aspiration) :
  wf (exception_handlers self) →
  let table := exception_handlers self in
  let error_handler := (partition_handlers table).1 in
  let typed := (partition_handlers table).2 in
  error_handler = snd <$> last (server_error_items table)
  ∧ typed = typed_items table
  ∧ (∀ key, get key typed =
       if key_in key server_error_keys then None else get key table)
  ∧ (∀ key h,
       key_in key server_error_keys = true →
       get key table = Some h →
       (∀ key', key_in key' server_error_keys = true →
                is_Some (get key' table) → key' = key) →
       error_handler = Some h)
  ∧ (∀ stack,
       build_middleware_stack self = Returns stack →
       head (layers stack) =
         Some (ServerErrorMiddleware,
               [("handler", of_optional error_handler);
                ("debug", VBool (debug self))])
       ∧ last (layers stack) =
           Some (ExceptionMiddleware,
                 [("handlers", VHandlers typed);
                  ("debug", VBool (debug self))])).
Proof.
  intros Hwf table error_handler typed.
  pose proof (partition_handlers_wf table Hwf) as Hp.
  assert (error_handler = snd <$> last (server_error_items table)) as Heh
    by (unfold error_handler; by rewrite Hp).
  assert (typed = typed_items table) as Hth
    by (unfold typed; by rewrite Hp).
  split_and!; [done|done| | |].
  - intros key. rewrite Hth. unfold typed_items, is_server_error_item, items.
    rewrite (get_filter_keys (fun k => negb (key_in k server_error_keys))).
    by destruct (key_in key server_error_keys).
  - intros key h Hkey Hget Honly. rewrite Heh.
    assert ((key, h) ∈ server_error_items table) as Hin.
    { apply list_elem_of_In, filter_In. split; [|done].
      apply list_elem_of_In. by apply get_Some_elem_of. }
    destruct (last (server_error_items table)) as [[k' h']|] eqn:Hlast.
    + apply last_Some_elem_of, list_elem_of_In, filter_In in Hlast
        as [Hin' Hse].
      apply list_elem_of_In in Hin'.
      pose proof (elem_of_get k' h' table Hwf Hin') as Hget'.
      assert (k' = key) as -> by (apply Honly; [done|by rewrite Hget']).
      simpl. congruence.
    + apply last_None in Hlast. rewrite Hlast in Hin.
      by apply elem_of_nil in Hin.
  - intros stack Hstack. rewrite (layers_build _ _ Hstack). split; [done|].
    by rewrite app_comm_cons, last_snoc.
Qed.

(** C10: the status code 500 and the class [Exception] are both
    server-error keys.  When the table holds an entry under each, neither
    entry is in the typed table, the handler of the later entry is the
    error handler of the server-error layer, and the handler of the
    earlier entry is nowhere in the built stack: what the builder does is
    what it does with the table without that entry. *)
Theorem both_server_error_keys (self : Aspiration)
    (l1 l2 l3 : list (HandlerKey * Callable))
    (ka kb : HandlerKey) (ha hb : Callable) :
  exception_handlers self = l1 ++ (ka, ha) :: l2 ++ (kb, hb) :: l3 →
  wf (exception_handlers self) →
  key_in ka server_error_keys = true →
  key_in kb server_error_keys = true →
  (ka = StatusCode 500 ∧ kb = ExcClass Exception
   ∨ ka = ExcClass Exception ∧ kb = StatusCode 500)
  ∧ partition_handlers (exception_handlers self) = (Some hb, l1 ++ l2 ++ l3)
  ∧ get ka (partition_handlers (exception_handlers self)).2 = None
  ∧ get kb (partition_handlers (exception_handlers self)).2 = None
  ∧ (∀ stack,
       build_middleware_stack self = Returns stack →
       layers stack =
         (ServerErrorMiddleware,
          [("handler", VCallable hb); ("debug", VBool (debug self))])
         :: (layer_of <$> List.filter enabled (user_middleware self))
         ++ [(ExceptionMiddleware,
              [("handlers", VHandlers (l1 ++ l2 ++ l3));
               ("debug", VBool (debug self))])])
  ∧ build_middleware_stack self =
      build_middleware_stack
        (set_exception_handlers (l1 ++ l2 ++ (kb, hb) :: l3) self).
Proof.
  intros Htable Hwf Ha Hb. rewrite Htable in Hwf.
  destruct (two_server_error_entries _ _ _ _ _ _ _ Hwf Ha Hb)
    as [Hkeys Hrest].
  apply Forall_app in Hrest as [Hr1 Hrest].
  apply Forall_app in Hrest as [Hr2 Hr3].
  assert (is_server_error_item (ka, ha) = true) as Hia by exact Ha.
  assert (is_server_error_item (kb, hb) = true) as Hib by exact Hb.
  assert (partition_handlers (exception_handlers self)
          = (Some hb, l1 ++ l2 ++ l3)) as Hp.
  { rewrite Htable, (partition_handlers_wf _ Hwf).
    unfold server_error_items, typed_items, items.
    rewrite !List.filter_app. cbn [List.filter].
    rewrite !List.filter_app. cbn [List.filter].
    rewrite Hia, Hib. cbn [negb].
    rewrite !filter_none, !filter_all by done. done. }
  assert (partition_handlers (l1 ++ l2 ++ (kb, hb) :: l3)
          = (Some hb, l1 ++ l2 ++ l3)) as Hp'.
  { unfold partition_handlers, items. rewrite partition_fold.
    rewrite !List.filter_app. cbn [List.filter].
    rewrite Hib. cbn [negb].
    rewrite !filter_none, !filter_all by done. simpl.
    rewrite fold_setitem_fresh; [done|]. simpl.
    unfold wf, keys, items in Hwf.
    rewrite !fmap_app, !fmap_cons, fmap_app, fmap_cons in Hwf.
    apply NoDup_app in Hwf as (Hn1 & Hd1 & Hwf).
    apply NoDup_cons in Hwf as (_ & Hwf).
    apply NoDup_app in Hwf as (Hn2 & Hd2 & Hwf).
    apply NoDup_cons in Hwf as (_ & Hn3).
    rewrite !fmap_app. apply NoDup_app. split_and!; [done| |].
    - intros k Hk1 Hk. apply (Hd1 k Hk1). apply elem_of_cons. right.
      apply elem_of_app in Hk as [Hk|Hk]; apply elem_of_app; [by left|].
      right. apply elem_of_cons. by right.
    - apply NoDup_app. split_and!; [done| |done].
      intros k Hk2 Hk. apply (Hd2 k Hk2). apply elem_of_cons. by right. }
  split_and!; [done|done| | | |].
  - rewrite Hp. simpl. apply get_None.
    unfold keys, items. intros [[k v] [Hk Hin]]%list_elem_of_fmap_1.
    simpl in Hk. subst k.
    assert (is_server_error_item (ka, v) = false) as Hf.
    { apply (proj1 (Forall_forall _ _)
               (proj2 (Forall_app _ _ _)
                      (conj Hr1 (proj2 (Forall_app _ _ _) (conj Hr2 Hr3))))).
      done. }
    change (key_in ka server_error_keys = false) in Hf. congruence.
  - rewrite Hp. simpl. apply get_None.
    unfold keys, items. intros [[k v] [Hk Hin]]%list_elem_of_fmap_1.
    simpl in Hk. subst k.
    assert (is_server_error_item (kb, v) = false) as Hf.
    { apply (proj1 (Forall_forall _ _)
               (proj2 (Forall_app _ _ _)
                      (conj Hr1 (proj2 (Forall_app _ _ _) (conj Hr2 Hr3))))).
      done. }
    change (key_in kb server_error_keys = false) in Hf. congruence.
  - intros stack Hstack. by rewrite (layers_build _ _ Hstack), Hp.
  - symmetry. apply build_same_partition. by rewrite Hp, Hp'.
Qed.

(** ** The debug flag *)

(** C6, as the code has it: the debug flag is an option of both fixed
    layers.  Setting it to true on a consistent instance where it was
    false changes the [debug] option of the server-error layer and of the
    typed-exception layer and nothing else: the error handler, the typed
    table, the user layers with their options and the order of all
    layers stay as they were. *)
Theorem debug_toggle_frame (self : Aspiration) :
  consistent self →
  debug self = false →
  let self' := (debug_setter true self).2 in
  let error_handler := (partition_handlers (exception_handlers self)).1 in
  let typed := (partition_handlers (exception_handlers self)).2 in
  let user_layers := layer_of <$> List.filter enabled (user_middleware self) in
  layers (middleware_stack self) =
    (ServerErrorMiddleware,
     [("handler", of_optional error_handler); ("debug", VBool false)])
    :: user_layers
    ++ [(ExceptionMiddleware,
         [("handlers", VHandlers typed); ("debug", VBool false)])]
  ∧ layers (middleware_stack self') =
      (ServerErrorMiddleware,
       [("handler", of_optional error_handler); ("debug", VBool true)])
      :: user_layers
      ++ [(ExceptionMiddleware,
           [("handlers", VHandlers typed); ("debug", VBool true)])]
  ∧ (layers (middleware_stack self')).*1 = (layers (middleware_stack self)).*1
  ∧ (debug_setter true self).1 = Returns tt.
Proof.
  intros Hc Hd self' error_handler typed user_layers.
  pose proof (consistent_buildable _ Hc) as Hb.
  assert (debug_setter true self =
          (Returns tt,
           set_middleware_stack (stack_of (set_debug true self))
             (set_debug true self))) as Hset.
  { change (debug_setter true self) with (rebuild (set_debug true self)).
    rewrite rebuild_outcome. cbn [user_middleware set_debug].
    by rewrite Hb. }
  assert (layers (middleware_stack self) =
    (ServerErrorMiddleware,
     [("handler", of_optional error_handler); ("debug", VBool false)])
    :: user_layers
    ++ [(ExceptionMiddleware,
         [("handlers", VHandlers typed); ("debug", VBool false)])]) as H0.
  { rewrite (layers_build _ _ Hc), Hd. done. }
  assert (layers (middleware_stack self') =
    (ServerErrorMiddleware,
     [("handler", of_optional error_handler); ("debug", VBool true)])
    :: user_layers
    ++ [(ExceptionMiddleware,
         [("handlers", VHandlers typed); ("debug", VBool true)])]) as H1.
  { unfold self'. rewrite Hset.
    cbn [snd middleware_stack set_middleware_stack].
    by rewrite layers_stack_of. }
  split_and!; [done|done| |by rewrite Hset].
  rewrite H0, H1. simpl. by rewrite !fmap_app.
Qed.

(** ** Registration methods *)

(** C7: [middleware] called with a type other than ["http"] raises at
    once and leaves the instance as it was; called with ["http"] it
    returns, with the instance as it was, a decorator that registers the
    decorated function as the [dispatch] of a [BaseHTTPMiddleware] put at
    the front of the user list: the decorator leaves what that call of
    [add_middleware] leaves, and returns the function when the call
    returns. *)
Theorem middleware_http_only (middleware_type : string) (self : Aspiration) :
  (middleware_type ≠ "http" →
   middleware middleware_type self = (Raises middleware_error, self))
  ∧ ∃ decorator : Decorator,
      middleware "http" self = (Returns decorator, self)
      ∧ ∀ func self0,
          (decorator func self0).2 =
            (add_middleware BaseHTTPMiddleware
               [("dispatch", VCallable func)] self0).2
          ∧ user_middleware (decorator func self0).2 =
              Middleware_init BaseHTTPMiddleware [("dispatch", VCallable func)]
              :: user_middleware self0
          ∧ (decorator func self0).1 =
              if buildable (user_middleware self0)
              then Returns func
              else Raises (PyTypeError "app").
Proof.
  split.
  - intros Hne. unfold middleware.
    destruct (String.eqb middleware_type "http") eqn:Heq; [|done].
    by apply String.eqb_eq in Heq.
  - eexists. split; [reflexivity|]. intros func self0.
    unfold mbind, Method_bind.
    change (add_middleware BaseHTTPMiddleware [("dispatch", VCallable func)]
              self0) with
      (rebuild (set_user_middleware
                  (Middleware_init BaseHTTPMiddleware
                     [("dispatch", VCallable func)]
                   :: user_middleware self0) self0)).
    rewrite rebuild_outcome. cbn [user_middleware set_user_middleware].
    rewrite buildable_cons.
    change (constructible (Middleware_init BaseHTTPMiddleware
                             [("dispatch", VCallable func)])) with true.
    cbn [andb]. by destruct (buildable (user_middleware self0)).
Qed.

(** C8: the decorators of [route], [websocket_route] and
    [exception_handler], and the one [middleware] returns for ["http"],
    register the function they decorate and return it, whatever the
    function.  The route decorators hand it to the router and always
    return it; the other two leave what [add_exception_handler] and
    [add_middleware] leave, the function under its key or as the
    [dispatch] of the first user spec, and return it when that call
    returns. *)
Theorem decorators_return_function (func : Callable) (self self0 : Aspiration) :
  (∀ path methods name include_in_schema,
     ∃ decorator : Decorator,
       route path methods name include_in_schema self
         = (Returns decorator, self)
       ∧ decorator func self0 =
           (Returns func,
            set_router
              (Router_add_route path func methods name include_in_schema
                 (router self0)) self0))
  ∧ (∀ path name,
       ∃ decorator : Decorator,
         websocket_route path name self = (Returns decorator, self)
         ∧ decorator func self0 =
             (Returns func,
              set_router
                (Router_add_websocket_route path func name (router self0))
                self0))
  ∧ (∀ key,
       ∃ decorator : Decorator,
         exception_handler key self = (Returns decorator, self)
         ∧ (decorator func self0).2 =
             (add_exception_handler key func self0).2
         ∧ get key (exception_handlers (decorator func self0).2) = Some func
         ∧ (decorator func self0).1 =
             if buildable (user_middleware self0)
             then Returns func
             else Raises (PyTypeError "app"))
  ∧ ∃ decorator : Decorator,
      middleware "http" self = (Returns decorator, self)
      ∧ (decorator func self0).2 =
          (add_middleware BaseHTTPMiddleware
             [("dispatch", VCallable func)] self0).2
      ∧ head (user_middleware (decorator func self0).2) =
          Some (Middleware_init BaseHTTPMiddleware
                  [("dispatch", VCallable func)])
      ∧ (decorator func self0).1 =
          if buildable (user_middleware self0)
          then Returns func
          else Raises (PyTypeError "app").
Proof.
  split_and!.
  - intros. eexists. split; reflexivity.
  - intros. eexists. split; reflexivity.
  - intros key. eexists. split; [reflexivity|].
    unfold mbind, Method_bind.
    change (add_exception_handler key func self0) with
      (rebuild (set_exception_handlers
                  (setitem key func (exception_handlers self0)) self0)).
    rewrite rebuild_outcome. cbn [user_middleware set_exception_handlers].
    destruct (buildable (user_middleware self0));
      (split_and!; [done|apply get_setitem_eq|done]).
  - eexists. split; [reflexivity|].
    unfold mbind, Method_bind.
    change (add_middleware BaseHTTPMiddleware [("dispatch", VCallable func)]
              self0) with
      (rebuild (set_user_middleware
                  (Middleware_init BaseHTTPMiddleware
                     [("dispatch", VCallable func)]
                   :: user_middleware self0) self0)).
    rewrite rebuild_outcome. cbn [user_middleware set_user_middleware].
    rewrite buildable_cons.
    change (constructible (Middleware_init BaseHTTPMiddleware
                             [("dispatch", VCallable func)])) with true.
    cbn [andb]. by destruct (buildable (user_middleware self0)).
Qed.

(** ** The entry point *)

(** C9: a call of the application on a live scope object hands the
    stored stack the same scope reference, [receive] and [send], on a
    heap in which that scope holds the application under ["app"], its
    other keys and every other object being as before. *)
Theorem call_injects_app (self : Aspiration) (scope : positive)
    (receive : Receive) (send : Send) (h : Heap)
    (d : gmap string ScopeValue) :
  h !! scope = Some d →
  ∃ h' : Heap,
    __call__ self scope receive send h =
      asgi_call (middleware_stack self) scope receive send h'
    ∧ h' !! scope = Some (<["app" := SApp self]> d)
    ∧ (<["app" := SApp self]> d) !! "app" = Some (SApp self)
    ∧ (∀ key, key ≠ "app" → (<["app" := SApp self]> d) !! key = d !! key)
    ∧ ∀ other, other ≠ scope → h' !! other = h !! other.
Proof.
  intros Hd. exists (scope_setitem scope "app" (SApp self) h).
  unfold scope_setitem, Heap in *. split_and!.
  - done.
  - by rewrite lookup_alter_eq, Hd.
  - by rewrite lookup_insert_eq.
  - intros key Hkey. by rewrite lookup_insert_ne.
  - intros other Hother. by rewrite lookup_alter_ne.
Qed.

(** * Further properties of the class *)

(** ** What the mutators leave behind *)

Lemma with_config_outcome dbg table user (self : Aspiration) :
  with_config dbg table user self =
    if buildable user
    then with_config dbg table user self
    else {| _debug := dbg; state := state self; router := router self;
            exception_handlers := table;
            user_middleware := user;
            middleware_stack := middleware_stack self |}.
Proof.
  destruct (buildable user) eqn:Hb; [done|].
  unfold with_config, after. rewrite rebuild_outcome.
  cbn [user_middleware]. by rewrite Hb.
Qed.

Lemma debug_setter_config (value : bool) (self : Aspiration) :
  (debug_setter value self).2 =
    with_config value (exception_handlers self) (user_middleware self) self.
Proof. reflexivity. Qed.

Lemma add_middleware_config (middleware_class : MiddlewareClass)
    (kwargs : Options) (self : Aspiration) :
  (add_middleware middleware_class kwargs self).2 =
    with_config (debug self) (exception_handlers self)
      (Middleware_init middleware_class kwargs :: user_middleware self) self.
Proof. reflexivity. Qed.

Lemma add_exception_handler_config (key : HandlerKey) (handler : Callable)
    (self : Aspiration) :
  (add_exception_handler key handler self).2 =
    with_config (debug self)
      (setitem key handler (exception_handlers self))
      (user_middleware self) self.
Proof. reflexivity. Qed.

(** A second change of configuration hides the first, unless the first
    could be built and the second cannot: then the stack of the first
    stays. *)
Lemma with_config_with_config dbg1 t1 u1 dbg2 t2 u2 (self : Aspiration) :
  buildable u1 = false ∨ buildable u2 = true →
  with_config dbg2 t2 u2 (with_config dbg1 t1 u1 self) =
    with_config dbg2 t2 u2 self.
Proof.
  intros Hb. unfold with_config, after. rewrite !rebuild_outcome.
  cbn [user_middleware].
  destruct (buildable u1) eqn:Hb1, (buildable u2) eqn:Hb2;
    cbn [snd user_middleware set_middleware_stack _debug state router
           exception_handlers middleware_stack];
    rewrite ?Hb2; try reflexivity.
  destruct Hb; discriminate.
Qed.

Lemma with_config_returns dbg table user (self : Aspiration) :
  buildable user = true →
  consistent (with_config dbg table user self)
  ∧ user_middleware (with_config dbg table user self) = user
  ∧ exception_handlers (with_config dbg table user self) = table
  ∧ debug (with_config dbg table user self) = dbg.
Proof.
  intros Hb. unfold with_config, after. rewrite rebuild_outcome.
  cbn [user_middleware]. rewrite Hb. split_and!; [|done..].
  apply build_returns. by split.
Qed.

Lemma exception_handlers_with_config dbg table user (self : Aspiration) :
  exception_handlers (with_config dbg table user self) = table.
Proof.
  rewrite with_config_outcome. destruct (buildable user) eqn:Hb; [|done].
  by apply with_config_returns.
Qed.

Lemma user_middleware_with_config dbg table user (self : Aspiration) :
  user_middleware (with_config dbg table user self) = user.
Proof.
  rewrite with_config_outcome. destruct (buildable user) eqn:Hb; [|done].
  by apply with_config_returns.
Qed.

Lemma debug_with_config dbg table user (self : Aspiration) :
  debug (with_config dbg table user self) = dbg.
Proof.
  rewrite with_config_outcome. destruct (buildable user) eqn:Hb; [|done].
  by apply with_config_returns.
Qed.

Lemma consistent_with_config (self : Aspiration) :
  consistent self →
  with_config (debug self) (exception_handlers self) (user_middleware self)
    self = self.
Proof.
  intros Hc. pose proof (consistent_buildable _ Hc) as Hb.
  apply build_returns in Hc as [_ Hstack].
  unfold with_config, after. rewrite rebuild_outcome.
  cbn [user_middleware]. rewrite Hb.
  destruct self as [dbg st r t u stack]. simpl in *. by rewrite Hstack.
Qed.

Lemma rev_fmap {A B} (f : A → B) (l : list A) :
  rev (f <$> l) = f <$> rev l.
Proof.
  induction l as [|x l IH]; [done|].
  rewrite fmap_cons. cbn [rev]. by rewrite fmap_app, IH.
Qed.

Lemma buildable_rev (l : list Middleware) : buildable (rev l) = buildable l.
Proof.
  induction l as [|m l IH]; [done|].
  cbn [rev]. rewrite buildable_app, IH, buildable_cons. simpl.
  rewrite andb_true_r. apply andb_comm.
Qed.

Lemma buildable_spec_of (specs : list (MiddlewareClass * Options)) :
  Forall (fun spec => "app" ∉ keys spec.2) specs →
  buildable (spec_of <$> specs) = true.
Proof.
  intros Hall. apply buildable_Forall, Forall_fmap.
  eapply Forall_impl; [exact Hall|]. by intros spec Hspec _.
Qed.

Lemma constructible_init (middleware_class : MiddlewareClass)
    (kwargs : Options) :
  "app" ∉ keys kwargs →
  constructible (Middleware_init middleware_class kwargs) = true.
Proof.
  intros Happ. unfold constructible. cbn [enabled options Middleware_init].
  by rewrite bool_decide_eq_false_2.
Qed.

Lemma add_middleware_returns (middleware_class : MiddlewareClass)
    (kwargs : Options) (self : Aspiration) :
  buildable (Middleware_init middleware_class kwargs :: user_middleware self)
    = true →
  add_middleware middleware_class kwargs self =
    (Returns tt,
     with_config (debug self) (exception_handlers self)
       (Middleware_init middleware_class kwargs :: user_middleware self) self).
Proof.
  intros Hb. rewrite <- add_middleware_config.
  change (add_middleware middleware_class kwargs self) with
    (rebuild (set_user_middleware
                (Middleware_init middleware_class kwargs
                 :: user_middleware self) self)).
  rewrite rebuild_outcome. cbn [user_middleware set_user_middleware].
  by rewrite Hb.
Qed.

Lemma add_exception_handler_returns (key : HandlerKey) (handler : Callable)
    (self : Aspiration) :
  buildable (user_middleware self) = true →
  add_exception_handler key handler self =
    (Returns tt,
     with_config (debug self)
       (setitem key handler (exception_handlers self))
       (user_middleware self) self).
Proof.
  intros Hb. rewrite <- add_exception_handler_config.
  change (add_exception_handler key handler self) with
    (rebuild (set_exception_handlers
                (setitem key handler (exception_handlers self)) self)).
  rewrite rebuild_outcome. cbn [user_middleware set_exception_handlers].
  by rewrite Hb.
Qed.

Lemma add_middleware_each_config (specs : list (MiddlewareClass * Options))
    (self : Aspiration) :
  Forall (fun spec => "app" ∉ keys spec.2) specs →
  buildable (user_middleware self) = true →
  specs ≠ [] →
  add_middleware_each specs self =
    (Returns tt,
     with_config (debug self) (exception_handlers self)
       (rev (spec_of <$> specs) ++ user_middleware self) self).
Proof.
  revert self.
  induction specs as [|spec specs IH]; intros self Hall Hb Hne; [done|].
  apply Forall_cons in Hall as [Hspec Hall].
  assert (buildable (Middleware_init spec.1 spec.2 :: user_middleware self)
          = true) as Hb'.
  { by rewrite buildable_cons, Hb, constructible_init. }
  cbn [add_middleware_each]. unfold mbind at 1, Method_bind at 1.
  rewrite (add_middleware_returns _ _ _ Hb').
  destruct specs as [|spec' specs]; [reflexivity|].
  destruct (with_config_returns (debug self) (exception_handlers self)
              _ self Hb') as (_ & Hu & Ht & Hd).
  rewrite IH; [|done|by rewrite Hu|done].
  rewrite Hu, Ht, Hd. f_equal.
  rewrite with_config_with_config.
  - f_equal. rewrite (fmap_cons _ spec). cbn [rev].
    by rewrite <- app_assoc.
  - right. rewrite buildable_app, Hb', buildable_rev.
    by rewrite buildable_spec_of.
Qed.

Lemma add_exception_handler_each_config
    (entries : list (HandlerKey * Callable)) (self : Aspiration) :
  buildable (user_middleware self) = true →
  entries ≠ [] →
  add_exception_handler_each entries self =
    (Returns tt,
     with_config (debug self)
       (fold_left (fun acc kv => setitem kv.1 kv.2 acc) entries
          (exception_handlers self))
       (user_middleware self) self).
Proof.
  revert self.
  induction entries as [|kv entries IH]; intros self Hb Hne; [done|].
  cbn [add_exception_handler_each]. unfold mbind at 1, Method_bind at 1.
  rewrite (add_exception_handler_returns _ _ _ Hb).
  destruct entries as [|kv' entries]; [reflexivity|].
  destruct (with_config_returns (debug self)
              (setitem kv.1 kv.2 (exception_handlers self))
              _ self Hb) as (_ & Hu & Ht & Hd).
  rewrite IH; [|by rewrite Hu|done].
  rewrite Hu, Ht, Hd. f_equal.
  rewrite with_config_with_config by (by right). done.
Qed.

Lemma filter_enabled_spec_of (specs : list (MiddlewareClass * Options)) :
  layer_of <$> List.filter enabled (spec_of <$> specs) = specs.
Proof.
  induction specs as [|[c kwargs] specs IH]; [done|].
  rewrite fmap_cons. cbn [List.filter].
  change (enabled (spec_of (c, kwargs))) with true. cbn iota.
  by rewrite fmap_cons, IH.
Qed.

(** ** Registration order and repetition *)

(** X1: registering a handler under a key and then another under the
    same key leaves the instance that registering the second alone
    leaves; the key then maps to the second handler. *)
Theorem add_exception_handler_last_wins (key : HandlerKey)
    (h1 h2 : Callable) (self : Aspiration) :
  (add_exception_handler key h2 (add_exception_handler key h1 self).2).2 =
    (add_exception_handler key h2 self).2
  ∧ get key (exception_handlers
               (add_exception_handler key h2
                  (add_exception_handler key h1 self).2).2) = Some h2.
Proof.
  rewrite !add_exception_handler_config, !exception_handlers_with_config,
    !user_middleware_with_config, !debug_with_config.
  split; [|apply get_setitem_eq].
  rewrite setitem_setitem. apply with_config_with_config.
  destruct (buildable (user_middleware self)); [by right|by left].
Qed.

(** X2: the debug setter and [add_exception_handler] can be called in
    either order with the same instance as the result; so can
    [add_middleware] and either of them, when its keyword arguments do
    not hold the keyword [app]. *)
Theorem mutators_commute (middleware_class : MiddlewareClass)
    (kwargs : Options) (key : HandlerKey) (handler : Callable)
    (value : bool) (self : Aspiration) :
  ("app" ∉ keys kwargs →
   (add_exception_handler key handler
      (add_middleware middleware_class kwargs self).2).2 =
     (add_middleware middleware_class kwargs
        (add_exception_handler key handler self).2).2
   ∧ (debug_setter value (add_middleware middleware_class kwargs self).2).2 =
       (add_middleware middleware_class kwargs (debug_setter value self).2).2)
  ∧ (debug_setter value (add_exception_handler key handler self).2).2 =
      (add_exception_handler key handler (debug_setter value self).2).2.
Proof.
  rewrite !add_exception_handler_config, !add_middleware_config,
    !debug_setter_config, !exception_handlers_with_config,
    !user_middleware_with_config, !debug_with_config.
  split.
  - intros Happ.
    assert (buildable (Middleware_init middleware_class kwargs
                       :: user_middleware self) =
            buildable (user_middleware self)) as Hb.
    { by rewrite buildable_cons, constructible_init. }
    rewrite !with_config_with_config; [done|..];
      rewrite ?Hb; destruct (buildable (user_middleware self));
      auto.
  - rewrite !with_config_with_config; [done|..];
      destruct (buildable (user_middleware self)); auto.
Qed.

(** X3: only the last value given to the debug setter counts; setting
    the flag to the value it has on a consistent instance leaves the
    instance as it is, and so does setting it to another value and
    back. *)
Theorem debug_setter_round_trip (self : Aspiration) (v1 v2 : bool) :
  (debug_setter v2 (debug_setter v1 self).2).2 = (debug_setter v2 self).2
  ∧ (consistent self →
     (debug_setter (debug self) self).2 = self
     ∧ (debug_setter (debug self) (debug_setter v1 self).2).2 = self).
Proof.
  rewrite !debug_setter_config, !exception_handlers_with_config,
    !user_middleware_with_config.
  assert (buildable (user_middleware self) = false
          ∨ buildable (user_middleware self) = true) as Hb
    by (destruct (buildable (user_middleware self)); auto).
  rewrite !(with_config_with_config _ _ _ _ _ _ _ Hb).
  split; [done|]. intros Hc. split; exact (consistent_with_config self Hc).
Qed.

(** X4: on a consistent instance, calling [add_middleware] for each spec
    of a list whose keyword arguments do not hold the keyword [app]
    returns and puts the specs in front of the user list in reverse
    order of the calls, the last one added first; the stored stack has
    them in that order right under the server-error layer, above the
    layers of the earlier list. *)
Theorem add_middleware_each_order
    (specs : list (MiddlewareClass * Options)) (self : Aspiration) :
  Forall (fun spec => "app" ∉ keys spec.2) specs →
  consistent self →
  (add_middleware_each specs self).1 = Returns tt
  ∧ user_middleware (add_middleware_each specs self).2 =
      rev (spec_of <$> specs) ++ user_middleware self
  ∧ layers (middleware_stack (add_middleware_each specs self).2) =
      layer_of (server_errors_spec
                  (partition_handlers (exception_handlers self)).1
                  (debug self))
      :: rev specs
      ++ (layer_of <$> List.filter enabled (user_middleware self))
      ++ [layer_of (exceptions_spec
                      (partition_handlers (exception_handlers self)).2
                      (debug self))].
Proof.
  intros Hall Hc. pose proof (consistent_buildable _ Hc) as Hb.
  destruct (decide (specs = [])) as [->|Hne].
  - split_and!; [done|done|]. simpl. apply (layers_build _ _ Hc).
  - rewrite add_middleware_each_config by done. cbn [fst snd].
    assert (buildable (rev (spec_of <$> specs) ++ user_middleware self)
            = true) as Hb'.
    { rewrite buildable_app, Hb, buildable_rev.
      by rewrite buildable_spec_of. }
    destruct (with_config_returns (debug self) (exception_handlers self)
                _ self Hb') as (Hc' & Hu & Ht & Hd).
    split_and!; [done|done|].
    rewrite (layers_build _ _ Hc'), Hu, Ht, Hd.
    rewrite List.filter_app, fmap_app, rev_fmap, filter_enabled_spec_of.
    by rewrite <- app_assoc.
Qed.

(** X5: constructing the application with a list of specs made from
    classes and keyword arguments that [add_middleware] can be called
    with, none of them holding the keyword [app], returns the instance
    that constructing it without middleware and adding the specs one by
    one, last first, leaves. *)
Theorem init_middleware_as_adds (dbg : bool)
    (rs : option (list BaseRoute))
    (specs : list (MiddlewareClass * Options))
    (eh : option (dict HandlerKey Callable))
    (startup shutdown : option (list Callable)) :
  Forall (fun spec => keyword_arguments spec.2 ∧ ("app" ∉ keys spec.2))
    specs →
  ∃ self,
    __init__ dbg rs (Some (spec_of <$> specs)) eh startup shutdown =
      Returns self
    ∧ init_then (__init__ dbg rs None eh startup shutdown)
        (add_middleware_each (rev specs)) = Returns self.
Proof.
  intros Hall.
  assert (Forall (fun spec => "app" ∉ keys spec.2) specs) as Happ
    by (eapply Forall_impl; [exact Hall|]; by intros spec [_ ?]).
  assert (Forall (fun spec => "app" ∉ keys spec.2) (rev specs)) as Happ'.
  { apply Forall_forall. intros spec Hin.
    apply list_elem_of_In, in_rev, list_elem_of_In in Hin.
    by apply (proj1 (Forall_forall _ _) Happ). }
  unfold __init__, init_then. rewrite !rebuild_outcome.
  change (user_middleware
            (init_attributes dbg rs (Some (spec_of <$> specs)) eh
               startup shutdown)) with (spec_of <$> specs).
  change (user_middleware
            (init_attributes dbg rs None eh startup shutdown))
    with (@nil Middleware).
  rewrite (buildable_spec_of _ Happ). cbn [buildable forallb].
  eexists. split; [reflexivity|].
  unfold mbind, Outcome_bind.
  destruct specs as [|spec specs]; [reflexivity|].
  rewrite add_middleware_each_config; [|done|done|].
  - f_equal. rewrite rev_fmap, rev_involutive.
    unfold with_config, after. rewrite rebuild_outcome.
    cbn [user_middleware set_middleware_stack init_attributes].
    rewrite app_nil_r, (buildable_spec_of _ Happ). reflexivity.
  - intros Hnil. apply (f_equal length) in Hnil.
    rewrite length_rev in Hnil. done.
Qed.

(** X6: constructing the application with a table of handlers does what
    constructing it without handlers and registering the entries of the
    table one by one, in iteration order, does: the same instance, or the
    same exception. *)
Theorem init_handlers_as_adds (dbg : bool)
    (rs : option (list BaseRoute)) (mw : option (list Middleware))
    (table : dict HandlerKey Callable)
    (startup shutdown : option (list Callable)) :
  __init__ dbg rs mw (Some table) startup shutdown =
    init_then (__init__ dbg rs mw None startup shutdown)
      (add_exception_handler_each (items table)).
Proof.
  unfold __init__, init_then. rewrite !rebuild_outcome.
  change (user_middleware
            (init_attributes dbg rs mw (Some table) startup shutdown))
    with (default [] mw).
  change (user_middleware (init_attributes dbg rs mw None startup shutdown))
    with (default [] mw).
  destruct (buildable (default [] mw)) eqn:Hb; [|reflexivity].
  unfold mbind, Outcome_bind.
  destruct table as [|kv table]; [reflexivity|].
  rewrite add_exception_handler_each_config; [|done|done].
  f_equal. unfold with_config, after. rewrite rebuild_outcome.
  cbn [user_middleware set_middleware_stack init_attributes].
  rewrite Hb. reflexivity.
Qed.

(** ** Registering handlers *)

Lemma server_error_items_setitem_typed (key : HandlerKey) (handler : Callable)
    (table : dict HandlerKey Callable) :
  key_in key server_error_keys = false →
  server_error_items (setitem key handler table) = server_error_items table.
Proof.
  intros Hkey. unfold server_error_items, is_server_error_item, items.
  exact (filter_setitem_other (fun k => key_in k server_error_keys)
           key handler table Hkey).
Qed.

Lemma typed_items_setitem_server_error (key : HandlerKey) (handler : Callable)
    (table : dict HandlerKey Callable) :
  key_in key server_error_keys = true →
  typed_items (setitem key handler table) = typed_items table.
Proof.
  intros Hkey. unfold typed_items, is_server_error_item, items.
  apply (filter_setitem_other (fun k => negb (key_in k server_error_keys))
           key handler table).
  by rewrite Hkey.
Qed.

Lemma get_typed_items (key : HandlerKey) (table : dict HandlerKey Callable) :
  get key (typed_items table) =
    if key_in key server_error_keys then None else get key table.
Proof.
  unfold typed_items, is_server_error_item, items.
  rewrite (get_filter_keys (fun k => negb (key_in k server_error_keys))).
  by destruct (key_in key server_error_keys).
Qed.

(** The handler of the one server-error key a table holds is its error
    handler. *)
Lemma sole_server_error_handler (key : HandlerKey) (h : Callable)
    (table : dict HandlerKey Callable) :
  wf table →
  key_in key server_error_keys = true →
  get key table = Some h →
  (∀ key', key_in key' server_error_keys = true → key' ≠ key →
           get key' table = None) →
  snd <$> last (server_error_items table) = Some h.
Proof.
  intros Hwf Hkey Hget Honly.
  assert ((key, h) ∈ server_error_items table) as Hin.
  { apply list_elem_of_In, filter_In. split; [|done].
    apply list_elem_of_In. by apply get_Some_elem_of. }
  destruct (last (server_error_items table)) as [[k' h']|] eqn:Hlast.
  - apply last_Some_elem_of, list_elem_of_In, filter_In in Hlast
      as [Hin' Hse].
    apply list_elem_of_In in Hin'.
    pose proof (elem_of_get k' h' table Hwf Hin') as Hget'.
    destruct (decide (k' = key)) as [->|Hne]; [simpl; congruence|].
    rewrite (Honly k' Hse Hne) in Hget'. discriminate.
  - apply last_None in Hlast. rewrite Hlast in Hin.
    by apply elem_of_nil in Hin.
Qed.

(** A table with entries under both server-error keys: the later entry
    gives the error handler and the other entries are the typed ones. *)
Lemma partition_two_server_error_entries
    (l1 l2 l3 : list (HandlerKey * Callable))
    (ka kb : HandlerKey) (ha hb : Callable) :
  wf (l1 ++ (ka, ha) :: l2 ++ (kb, hb) :: l3) →
  key_in ka server_error_keys = true →
  key_in kb server_error_keys = true →
  partition_handlers (l1 ++ (ka, ha) :: l2 ++ (kb, hb) :: l3) =
    (Some hb, l1 ++ l2 ++ l3).
Proof.
  intros Hwf Ha Hb.
  destruct (two_server_error_entries _ _ _ _ _ _ _ Hwf Ha Hb) as [_ Hrest].
  apply Forall_app in Hrest as [Hr1 Hrest].
  apply Forall_app in Hrest as [Hr2 Hr3].
  assert (is_server_error_item (ka, ha) = true) as Hia by exact Ha.
  assert (is_server_error_item (kb, hb) = true) as Hib by exact Hb.
  rewrite (partition_handlers_wf _ Hwf).
  unfold server_error_items, typed_items, items.
  rewrite !List.filter_app. cbn [List.filter].
  rewrite !List.filter_app. cbn [List.filter].
  rewrite Hia, Hib. cbn [negb].
  rewrite !filter_none, !filter_all by done. done.
Qed.

(** X7: on an instance whose table holds each key once, registering a
    handler under a key other than 500 and [Exception] puts it under
    that key in the table the builder hands to the typed-exception layer,
    leaves every other key of that table as it was, and leaves the error
    handler as it was; when the call returns, the stored stack ends in
    the typed-exception layer with that table. *)
Theorem add_exception_handler_typed (key : HandlerKey) (handler : Callable)
    (self : Aspiration) :
  wf (exception_handlers self) →
  key_in key server_error_keys = false →
  let self' := (add_exception_handler key handler self).2 in
  let typed' := (partition_handlers (exception_handlers self')).2 in
  get key typed' = Some handler
  ∧ (∀ key', key' ≠ key →
       get key' typed' =
         get key' (partition_handlers (exception_handlers self)).2)
  ∧ (partition_handlers (exception_handlers self')).1 =
      (partition_handlers (exception_handlers self)).1
  ∧ ((add_exception_handler key handler self).1 = Returns tt →
     last (layers (middleware_stack self')) =
       Some (ExceptionMiddleware,
             [("handlers", VHandlers typed'); ("debug", VBool (debug self))])).
Proof.
  intros Hwf Hkey self' typed'.
  assert (exception_handlers self' =
          setitem key handler (exception_handlers self)) as Htable.
  { unfold self'. rewrite add_exception_handler_config, with_config_outcome.
    destruct (buildable (user_middleware self)) eqn:Hb; [|done].
    by apply with_config_returns. }
  pose proof (wf_setitem key handler _ Hwf) as Hwf'.
  assert (typed' = typed_items (setitem key handler (exception_handlers self)))
    as Htyped.
  { unfold typed'. by rewrite Htable, (partition_handlers_wf _ Hwf'). }
  split_and!.
  - rewrite Htyped, get_typed_items, Hkey. apply get_setitem_eq.
  - intros key' Hne. rewrite Htyped, (partition_handlers_wf _ Hwf). simpl.
    rewrite !get_typed_items.
    destruct (key_in key' server_error_keys); [done|].
    by apply get_setitem_ne.
  - rewrite Htable, (partition_handlers_wf _ Hwf'),
      (partition_handlers_wf _ Hwf). simpl.
    by rewrite server_error_items_setitem_typed.
  - intros Hret.
    assert (buildable (user_middleware self) = true) as Hb.
    { revert Hret.
      change (add_exception_handler key handler self) with
        (rebuild (set_exception_handlers
                    (setitem key handler (exception_handlers self)) self)).
      rewrite rebuild_outcome. cbn [user_middleware set_exception_handlers].
      by destruct (buildable (user_middleware self)). }
    destruct (with_config_returns (debug self)
                (setitem key handler (exception_handlers self))
                _ self Hb) as (Hc & Hu & Ht & Hd).
    unfold typed'. rewrite Htable. unfold self'.
    rewrite add_exception_handler_config, (layers_build _ _ Hc), Ht, Hd.
    by rewrite app_comm_cons, last_snoc.
Qed.

(** X8: on an instance whose table holds each key once and has no entry
    under the other server-error key, registering a handler under 500 or
    under [Exception] makes it the error handler the builder hands to
    the server-error layer and leaves the table of the typed-exception
    layer as it was; when the call returns, the stored stack starts with
    the server-error layer with that handler. *)
Theorem add_exception_handler_server_error (key : HandlerKey)
    (handler : Callable) (self : Aspiration) :
  wf (exception_handlers self) →
  key_in key server_error_keys = true →
  (∀ key', key_in key' server_error_keys = true → key' ≠ key →
           get key' (exception_handlers self) = None) →
  let self' := (add_exception_handler key handler self).2 in
  (partition_handlers (exception_handlers self')).1 = Some handler
  ∧ (partition_handlers (exception_handlers self')).2 =
      (partition_handlers (exception_handlers self)).2
  ∧ ((add_exception_handler key handler self).1 = Returns tt →
     head (layers (middleware_stack self')) =
       Some (ServerErrorMiddleware,
             [("handler", VCallable handler);
              ("debug", VBool (debug self))])).
Proof.
  intros Hwf Hkey Honly self'.
  assert (exception_handlers self' =
          setitem key handler (exception_handlers self)) as Htable.
  { unfold self'. rewrite add_exception_handler_config, with_config_outcome.
    destruct (buildable (user_middleware self)) eqn:Hb; [|done].
    by apply with_config_returns. }
  pose proof (wf_setitem key handler _ Hwf) as Hwf'.
  assert ((partition_handlers (exception_handlers self')).1 = Some handler)
    as Heh.
  { rewrite Htable, (partition_handlers_wf _ Hwf'). simpl.
    apply (sole_server_error_handler key); [done|done| |].
    - apply get_setitem_eq.
    - intros key' Hse Hne. rewrite get_setitem_ne by done. by apply Honly. }
  split_and!; [done| |].
  - rewrite Htable, (partition_handlers_wf _ Hwf'),
      (partition_handlers_wf _ Hwf). simpl.
    by apply typed_items_setitem_server_error.
  - intros Hret.
    assert (buildable (user_middleware self) = true) as Hb.
    { revert Hret.
      change (add_exception_handler key handler self) with
        (rebuild (set_exception_handlers
                    (setitem key handler (exception_handlers self)) self)).
      rewrite rebuild_outcome. cbn [user_middleware set_exception_handlers].
      by destruct (buildable (user_middleware self)). }
    destruct (with_config_returns (debug self)
                (setitem key handler (exception_handlers self))
                _ self Hb) as (Hc & Hu & Ht & Hd).
    rewrite Htable in Heh. unfold self'.
    rewrite add_exception_handler_config, (layers_build _ _ Hc), Ht, Hd.
    by rewrite Heh.
Qed.

(** X9: when the table holds entries under both server-error keys,
    registering a new handler under the earlier of the two stores the
    handler in the table and leaves the stored stack exactly as it was:
    the server-error layer keeps the handler of the later entry. *)
Theorem reregister_shadowed_server_error_key (self : Aspiration)
    (l1 l2 l3 : list (HandlerKey * Callable))
    (ka kb : HandlerKey) (ha hb handler : Callable) :
  consistent self →
  exception_handlers self = l1 ++ (ka, ha) :: l2 ++ (kb, hb) :: l3 →
  wf (exception_handlers self) →
  key_in ka server_error_keys = true →
  key_in kb server_error_keys = true →
  let self' := (add_exception_handler ka handler self).2 in
  exception_handlers self' = l1 ++ (ka, handler) :: l2 ++ (kb, hb) :: l3
  ∧ get ka (exception_handlers self') = Some handler
  ∧ middleware_stack self' = middleware_stack self
  ∧ head (layers (middleware_stack self')) =
      Some (ServerErrorMiddleware,
            [("handler", VCallable hb); ("debug", VBool (debug self))]).
Proof.
  intros Hc Htable Hwf Ha Hb self'.
  pose proof (consistent_buildable _ Hc) as Hbuildable.
  destruct (with_config_returns (debug self)
              (setitem ka handler (exception_handlers self))
              _ self Hbuildable) as (Hc' & Hu & Ht & Hd).
  assert (self' = with_config (debug self)
                    (setitem ka handler (exception_handlers self))
                    (user_middleware self) self) as Hself'
    by apply add_exception_handler_config.
  rewrite <- Hself' in Hc', Hu, Ht, Hd.
  assert (ka ∉ l1.*1) as Hka.
  { rewrite Htable in Hwf. unfold wf, keys, items in Hwf.
    rewrite fmap_app, fmap_cons in Hwf.
    apply NoDup_app in Hwf as (_ & Hdisj & _).
    intros Hin. apply (Hdisj ka Hin). apply elem_of_cons. by left. }
  assert (exception_handlers self' =
          l1 ++ (ka, handler) :: l2 ++ (kb, hb) :: l3) as Htable'.
  { rewrite Ht, Htable. by apply setitem_split. }
  assert (wf (exception_handlers self')) as Hwf'.
  { rewrite Ht. by apply wf_setitem. }
  assert (partition_handlers (exception_handlers self') =
          partition_handlers (exception_handlers self)) as Hp.
  { rewrite Htable' in Hwf' |- *. rewrite Htable in Hwf |- *.
    by rewrite !partition_two_server_error_entries. }
  assert (middleware_stack self' = middleware_stack self) as Hstack.
  { assert (build_middleware_stack self' = build_middleware_stack self)
      as Hbuild.
    { rewrite !build_outcome, Hu, Hbuildable. f_equal.
      unfold stack_of. rewrite !middleware_list_eq, Hp, Hu.
      by rewrite Hd. }
    unfold consistent in Hc, Hc'. congruence. }
  split_and!; [done| |done|].
  - rewrite Ht. apply get_setitem_eq.
  - rewrite Hstack, (layers_build _ _ Hc), Htable.
    rewrite Htable in Hwf.
    by rewrite partition_two_server_error_entries.
Qed.

(** ** Decorators, reachable instances and the constructor *)

(** X10: decorating a function with [route], [websocket_route] or
    [exception_handler] leaves the instance that the direct call of
    [add_route], [add_websocket_route] or [add_exception_handler] with
    the same arguments leaves, and the route decorators change nothing
    but the router: flag, table, user list and stored stack stay. *)
Theorem decorators_are_direct_calls (func : Callable)
    (self self0 : Aspiration) :
  (∀ path methods name include_in_schema,
     ∃ decorator : Decorator,
       route path methods name include_in_schema self
         = (Returns decorator, self)
       ∧ (decorator func self0).2 =
           (add_route path func methods name include_in_schema self0).2
       ∧ (decorator func self0).2 =
           set_router (router (decorator func self0).2) self0)
  ∧ (∀ path name,
       ∃ decorator : Decorator,
         websocket_route path name self = (Returns decorator, self)
         ∧ (decorator func self0).2 =
             (add_websocket_route path func name self0).2
         ∧ (decorator func self0).2 =
             set_router (router (decorator func self0).2) self0)
  ∧ (∀ key,
       ∃ decorator : Decorator,
         exception_handler key self = (Returns decorator, self)
         ∧ (decorator func self0).2 =
             (add_exception_handler key func self0).2).
Proof.
  split_and!.
  - intros. eexists. split; [reflexivity|]. split; reflexivity.
  - intros. eexists. split; [reflexivity|]. split; reflexivity.
  - intros key. eexists. split; [reflexivity|].
    unfold mbind, Method_bind.
    by destruct (add_exception_handler key func self0) as [[[]|e] s].
Qed.

(** X11: in every instance a program can hold whose user list can be
    built, the stored stack is the server-error layer with the handler of
    the last entry under a server-error key (none if there is no such
    entry), then the enabled user specs in list order, then the
    typed-exception layer with the entries under the other keys; no
    server-error key is in that table. *)
Theorem reachable_stack_shape (self : Aspiration) :
  reachable self →
  Forall (fun m => enabled m = true → "app" ∉ keys (options m))
    (user_middleware self) →
  layers (middleware_stack self) =
    (ServerErrorMiddleware,
     [("handler",
       of_optional (snd <$> last (server_error_items (exception_handlers self))));
      ("debug", VBool (debug self))])
    :: (layer_of <$> List.filter enabled (user_middleware self))
    ++ [(ExceptionMiddleware,
         [("handlers", VHandlers (typed_items (exception_handlers self)));
          ("debug", VBool (debug self))])]
  ∧ ∀ key, key_in key server_error_keys = true →
           get key (typed_items (exception_handlers self)) = None.
Proof.
  intros [Hwf Hc]%reachable_invariant Hb%buildable_Forall.
  specialize (Hc Hb). split.
  - rewrite (layers_build _ _ Hc), (partition_handlers_wf _ Hwf). done.
  - intros key Hkey. by rewrite get_typed_items, Hkey.
Qed.

(** X12: the constructor takes a missing middleware list for an empty
    one and a missing handler table for an empty one; it then returns an
    instance whose stack is the server-error layer without a handler
    around the typed-exception layer without handlers around the router,
    both with the debug flag given. *)
Theorem init_defaults (dbg : bool) (rs : option (list BaseRoute))
    (startup shutdown : option (list Callable)) :
  __init__ dbg rs None None startup shutdown =
    __init__ dbg rs (Some []) (Some PyDict.empty) startup shutdown
  ∧ ∃ self,
      __init__ dbg rs None None startup shutdown = Returns self
      ∧ user_middleware self = []
      ∧ exception_handlers self = []
      ∧ debug self = dbg
      ∧ middleware_stack self =
          Layer ServerErrorMiddleware
            [("handler", VNone); ("debug", VBool dbg)]
            (Layer ExceptionMiddleware
               [("handlers", VHandlers []); ("debug", VBool dbg)]
               RouterApp).
Proof.
  split; [reflexivity|]. eexists. split; [reflexivity|].
  split_and!; reflexivity.
Qed.

(** ** The keyword [app] *)

(** X13: [add_middleware] called with the keyword [app] among its
    keyword arguments raises [TypeError], after the spec has been put at
    the front of the user list: the instance it leaves has the spec in
    its list and the stack it had before.  From then on the debug setter,
    [add_exception_handler] and [add_middleware] raise as well, and the
    stored stack stays what it was.  The constructor given such a spec
    in its middleware list raises too and returns no instance. *)
Theorem add_middleware_app_keyword (middleware_class : MiddlewareClass)
    (kwargs : Options) (self : Aspiration) :
  "app" ∈ keys kwargs →
  let self' := (add_middleware middleware_class kwargs self).2 in
  add_middleware middleware_class kwargs self =
    (Raises (PyTypeError "app"),
     set_user_middleware
       (Middleware_init middleware_class kwargs :: user_middleware self) self)
  ∧ middleware_stack self' = middleware_stack self
  ∧ build_middleware_stack self' = Raises (PyTypeError "app")
  ∧ (∀ value,
       (debug_setter value self').1 = Raises (PyTypeError "app")
       ∧ middleware_stack (debug_setter value self').2 =
           middleware_stack self)
  ∧ (∀ key handler,
       (add_exception_handler key handler self').1 =
         Raises (PyTypeError "app")
       ∧ middleware_stack (add_exception_handler key handler self').2 =
           middleware_stack self)
  ∧ (∀ c kw,
       (add_middleware c kw self').1 = Raises (PyTypeError "app")
       ∧ middleware_stack (add_middleware c kw self').2 =
           middleware_stack self)
  ∧ (∀ dbg rs l1 l2 eh startup shutdown,
       __init__ dbg rs
         (Some (l1 ++ Middleware_init middleware_class kwargs :: l2))
         eh startup shutdown = Raises (PyTypeError "app")).
Proof.
  intros Happ self'.
  assert (buildable (Middleware_init middleware_class kwargs
                     :: user_middleware self) = false) as Hb.
  { rewrite buildable_cons. unfold constructible.
    cbn [enabled options Middleware_init].
    by rewrite bool_decide_eq_true_2. }
  assert (add_middleware middleware_class kwargs self =
          (Raises (PyTypeError "app"),
           set_user_middleware
             (Middleware_init middleware_class kwargs :: user_middleware self)
             self)) as Hadd.
  { change (add_middleware middleware_class kwargs self) with
      (rebuild (set_user_middleware
                  (Middleware_init middleware_class kwargs
                   :: user_middleware self) self)).
    rewrite rebuild_outcome. cbn [user_middleware set_user_middleware].
    by rewrite Hb. }
  unfold self'. rewrite Hadd. cbn [snd].
  split_and!; [done|done| | | | |].
  - rewrite build_outcome. cbn [user_middleware set_user_middleware].
    by rewrite Hb.
  - intros value.
    change (debug_setter value ?s) with (rebuild (set_debug value s)).
    rewrite rebuild_outcome.
    cbn [user_middleware set_user_middleware set_debug]. by rewrite Hb.
  - intros key handler.
    change (add_exception_handler key handler ?s) with
      (rebuild (set_exception_handlers
                  (setitem key handler (exception_handlers s)) s)).
    rewrite rebuild_outcome.
    cbn [user_middleware set_user_middleware set_exception_handlers].
    by rewrite Hb.
  - intros c kw.
    change (add_middleware c kw ?s) with
      (rebuild (set_user_middleware
                  (Middleware_init c kw :: user_middleware s) s)).
    rewrite rebuild_outcome.
    cbn [user_middleware set_user_middleware].
    rewrite (buildable_cons (Middleware_init c kw)), Hb, andb_false_r.
    done.
  - intros dbg rs l1 l2 eh startup shutdown. unfold __init__.
    rewrite rebuild_outcome.
    change (user_middleware
              (init_attributes dbg rs
                 (Some (l1 ++ Middleware_init middleware_class kwargs :: l2))
                 eh startup shutdown))
      with (l1 ++ Middleware_init middleware_class kwargs :: l2).
    assert (constructible (Middleware_init middleware_class kwargs) = false)
      as Hc.
    { unfold constructible. cbn [enabled options Middleware_init].
      by rewrite bool_decide_eq_true_2. }
    by rewrite buildable_app, buildable_cons, Hc, andb_false_l, andb_false_r.
Qed.

End Application.

(** * The properties on concrete applications

    Functions are named by strings here; [app] is each time the
    instance the constructor call shown returns. *)

Arguments RouterApp {Callable Any}.
Arguments Layer {Callable Any} c opts app.
Arguments VNone {Callable Any}.
Arguments VBool {Callable Any} b.
Arguments VCallable {Callable Any} f.
Arguments VHandlers {Callable Any} handlers.
Arguments VAny {Callable Any} x.
Arguments Middleware_init {Callable Any} c opts.
Arguments Build_Middleware {Callable Any} cls options enabled.
Arguments SApp {Callable Any} app.
Arguments SAny {Callable Any} x.

(** A decidable fact about concrete data, by computation. *)
Ltac by_computation := apply (bool_decide_unpack _); vm_compute; exact I.

Lemma build_middleware_stack_order_witness :
  let m1 := Middleware_init (UserMiddleware "GZip") [("level", VAny "9")] in
  let m2 := Middleware_init (UserMiddleware "Session") [] in
  let m3 := Middleware_init (UserMiddleware "Auth") [] in
  let app :=
    (rebuild string string
       (init_attributes string string false None (Some [m1; m2; m3])
          None None None)).2 in
  __init__ string string false None (Some [m1; m2; m3]) None None None =
    Returns app
  ∧ build_middleware_stack string string app
    = Returns
        (Layer ServerErrorMiddleware
           [("handler", VNone); ("debug", VBool false)]
           (Layer (UserMiddleware "GZip") [("level", VAny "9")]
              (Layer (UserMiddleware "Session") []
                 (Layer (UserMiddleware "Auth") []
                    (Layer ExceptionMiddleware
                       [("handlers", VHandlers []); ("debug", VBool false)]
                       RouterApp))))).
Proof.
  intros m1 m2 m3 app. split; [reflexivity|].
  destruct (build_middleware_stack_order string string app)
    as (_ & _ & _ & _ & _ & H).
  apply (H m1 m2 m3); try reflexivity; by_computation.
Defined.

Lemma middleware_stack_consistent_witness :
  let app0 :=
    (rebuild string string
       (init_attributes string string false None None None None None)).2 in
  let app1 := (add_exception_handler string string (StatusCode 404)
                 "not_found" app0).2 in
  let app2 := (add_middleware string string (UserMiddleware "GZip") []
                 app1).2 in
  let app3 := (debug_setter string string true app2).2 in
  __init__ string string false None None None None None = Returns app0
  ∧ (debug_setter string string true app2).1 = Returns tt
  ∧ reachable string string app3
  ∧ build_middleware_stack string string app3 =
      Returns (middleware_stack string string app3)
  ∧ middleware_stack string string app3 =
      Layer ServerErrorMiddleware [("handler", VNone); ("debug", VBool true)]
        (Layer (UserMiddleware "GZip") []
           (Layer ExceptionMiddleware
              [("handlers", VHandlers [(StatusCode 404, "not_found")]);
               ("debug", VBool true)]
              RouterApp)).
Proof.
  intros app0 app1 app2 app3.
  assert (reachable string string app3) as Hr.
  { apply (reachable_debug_setter string string true app2).
    apply (reachable_add_middleware string string (UserMiddleware "GZip") []
             app1).
    apply (reachable_add_exception_handler string string (StatusCode 404)
             "not_found" app0).
    by apply (reachable_init string string false None None None None None). }
  destruct (middleware_stack_consistent string string)
    as (Hdebug & _ & _ & _ & _).
  destruct (Hdebug true app2) as (_ & _ & Hc).
  split_and!; [reflexivity|reflexivity|exact Hr|exact (Hc eq_refl)
              |reflexivity].
Defined.

Lemma disabled_middleware_skipped_witness :
  let m1 := Middleware_init (UserMiddleware "GZip") [] in
  let m2 := Build_Middleware (UserMiddleware "Session") [] false in
  let m3 := Middleware_init (UserMiddleware "Auth") [] in
  let app :=
    (rebuild string string
       (init_attributes string string false None (Some [m1; m2; m3])
          None None None)).2 in
  __init__ string string false None (Some [m1; m2; m3]) None None None =
    Returns app
  ∧ enabled string string m2 = false
  ∧ build_middleware_stack string string app =
      build_middleware_stack string string
        (set_user_middleware string string [m1; m3] app)
  ∧ layers string string (middleware_stack string string app) =
      [(ServerErrorMiddleware, [("handler", VNone); ("debug", VBool false)]);
       (UserMiddleware "GZip", []);
       (UserMiddleware "Auth", []);
       (ExceptionMiddleware,
        [("handlers", VHandlers []); ("debug", VBool false)])].
Proof.
  intros m1 m2 m3 app.
  destruct (disabled_middleware_skipped string string app [m1] [m3] m2
              eq_refl eq_refl) as [Hbuild Hlayers].
  split_and!; [reflexivity|reflexivity|exact Hbuild|].
  exact (Hlayers (middleware_stack string string app) eq_refl).
Defined.

Lemma add_middleware_front_witness :
  let m1 := Middleware_init (UserMiddleware "Session") [] in
  let m2 := Middleware_init (UserMiddleware "Auth") [] in
  let app :=
    (rebuild string string
       (init_attributes string string false None (Some [m1; m2])
          None None None)).2 in
  __init__ string string false None (Some [m1; m2]) None None None =
    Returns app
  ∧ (add_middleware string string (UserMiddleware "GZip") [] app).1 =
      Returns tt
  ∧ middleware_stack string string
      (add_middleware string string (UserMiddleware "GZip") [] app).2
    = Layer ServerErrorMiddleware [("handler", VNone); ("debug", VBool false)]
        (Layer (UserMiddleware "GZip") []
           (Layer (UserMiddleware "Session") []
              (Layer (UserMiddleware "Auth") []
                 (Layer ExceptionMiddleware
                    [("handlers", VHandlers []); ("debug", VBool false)]
                    RouterApp)))).
Proof.
  intros m1 m2 app. split; [reflexivity|].
  destruct (add_middleware_front string string (UserMiddleware "GZip") [] app)
    as (_ & _ & _ & H).
  apply (H m1 m2); try reflexivity; by_computation.
Defined.

(** With handlers under both server-error keys, the one registered under
    500 is in the table and is not the error handler. *)
Lemma handler_table_partition_counterexample :
  let table : dict HandlerKey string :=
    [(StatusCode 500, "on_500"); (ExcClass Exception, "on_exception")] in
  let app :=
    (rebuild string string
       (init_attributes string string false None None (Some table)
          None None)).2 in
  __init__ string string false None None (Some table) None None = Returns app
  ∧ key_in (StatusCode 500) server_error_keys = true
  ∧ get (StatusCode 500) (exception_handlers string string app) = Some "on_500"
  ∧ head (layers string string (middleware_stack string string app)) =
      Some (ServerErrorMiddleware,
            [("handler", VCallable "on_exception"); ("debug", VBool false)])
  ∧ (partition_handlers string (exception_handlers string string app)).1
      ≠ Some "on_500".
Proof.
  intros table app. split_and!; [reflexivity..|].
  vm_compute. intros [=].
Qed.

Lemma handler_table_partition_witness :
  let table : dict HandlerKey string :=
    [(StatusCode 404, "not_found"); (StatusCode 500, "on_500");
     (ExcClass (ExceptionSubclass "HTTPException"), "on_http")] in
  let app :=
    (rebuild string string
       (init_attributes string string true None None (Some table)
          None None)).2 in
  __init__ string string true None None (Some table) None None = Returns app
  ∧ wf (exception_handlers string string app)
  ∧ build_middleware_stack string string app =
      Returns (middleware_stack string string app)
  ∧ head (layers string string (middleware_stack string string app)) =
      Some (ServerErrorMiddleware,
            [("handler", VCallable "on_500"); ("debug", VBool true)])
  ∧ last (layers string string (middleware_stack string string app)) =
      Some (ExceptionMiddleware,
            [("handlers",
              VHandlers
                [(StatusCode 404, "not_found");
                 (ExcClass (ExceptionSubclass "HTTPException"), "on_http")]);
             ("debug", VBool true)])
  ∧ (partition_handlers string (exception_handlers string string app)).1 =
      Some "on_500".
Proof.
  intros table app.
  assert (wf (exception_handlers string string app)) as Hwf
    by by_computation.
  destruct (handler_table_partition string string app Hwf)
    as (_ & _ & _ & H & Hstack).
  destruct (Hstack (middleware_stack string string app) eq_refl)
    as [Hhead Hlast].
  split_and!; [reflexivity|exact Hwf|reflexivity|exact Hhead|exact Hlast|].
  apply (H (StatusCode 500) "on_500"); [reflexivity..|].
  intros key' Hkey' [h' Hget]. apply key_in_server_error_keys in Hkey'.
  destruct Hkey' as [-> | ->]; [reflexivity|].
  vm_compute in Hget. discriminate Hget.
Defined.

Lemma both_server_error_keys_witness :
  let table : dict HandlerKey string :=
    [(StatusCode 500, "on_500"); (StatusCode 404, "not_found");
     (ExcClass Exception, "on_exception")] in
  let app :=
    (rebuild string string
       (init_attributes string string false None None (Some table)
          None None)).2 in
  __init__ string string false None None (Some table) None None = Returns app
  ∧ wf (exception_handlers string string app)
  ∧ layers string string (middleware_stack string string app) =
      [(ServerErrorMiddleware,
        [("handler", VCallable "on_exception"); ("debug", VBool false)]);
       (ExceptionMiddleware,
        [("handlers", VHandlers [(StatusCode 404, "not_found")]);
         ("debug", VBool false)])]
  ∧ build_middleware_stack string string app =
      build_middleware_stack string string
        (set_exception_handlers string string
           [(StatusCode 404, "not_found"); (ExcClass Exception, "on_exception")]
           app).
Proof.
  intros table app.
  assert (wf (exception_handlers string string app)) as Hwf
    by by_computation.
  destruct (both_server_error_keys string string app
              [] [(StatusCode 404, "not_found")] []
              (StatusCode 500) (ExcClass Exception) "on_500" "on_exception"
              eq_refl Hwf eq_refl eq_refl)
    as (_ & _ & _ & _ & Hlayers & Hbuild).
  split_and!; [reflexivity|exact Hwf| |exact Hbuild].
  exact (Hlayers (middleware_stack string string app) eq_refl).
Defined.

(** On the application with no configuration at all, the innermost
    layer, the typed-exception layer, is built with a different [debug]
    option once the flag is set. *)
Lemma debug_toggle_frame_counterexample :
  let app :=
    (rebuild string string
       (init_attributes string string false None None None None None)).2 in
  let app' := (debug_setter string string true app).2 in
  __init__ string string false None None None None None = Returns app
  ∧ (debug_setter string string true app).1 = Returns tt
  ∧ last (layers string string (middleware_stack string string app)) =
      Some (ExceptionMiddleware,
            [("handlers", VHandlers []); ("debug", VBool false)])
  ∧ last (layers string string (middleware_stack string string app')) =
      Some (ExceptionMiddleware,
            [("handlers", VHandlers []); ("debug", VBool true)])
  ∧ tail (layers string string (middleware_stack string string app'))
      ≠ tail (layers string string (middleware_stack string string app)).
Proof.
  intros app app'. split_and!; [reflexivity..|].
  vm_compute. intros [=].
Qed.

Lemma debug_toggle_frame_witness :
  let m1 := Middleware_init (UserMiddleware "GZip") [("level", VAny "9")] in
  let app :=
    (rebuild string string
       (init_attributes string string false None (Some [m1])
          (Some [(StatusCode 404, "not_found")]) None None)).2 in
  let app' := (debug_setter string string true app).2 in
  __init__ string string false None (Some [m1])
    (Some [(StatusCode 404, "not_found")]) None None = Returns app
  ∧ consistent string string app
  ∧ debug string string app = false
  ∧ layers string string (middleware_stack string string app) =
      [(ServerErrorMiddleware, [("handler", VNone); ("debug", VBool false)]);
       (UserMiddleware "GZip", [("level", VAny "9")]);
       (ExceptionMiddleware,
        [("handlers", VHandlers [(StatusCode 404, "not_found")]);
         ("debug", VBool false)])]
  ∧ layers string string (middleware_stack string string app') =
      [(ServerErrorMiddleware, [("handler", VNone); ("debug", VBool true)]);
       (UserMiddleware "GZip", [("level", VAny "9")]);
       (ExceptionMiddleware,
        [("handlers", VHandlers [(StatusCode 404, "not_found")]);
         ("debug", VBool true)])].
Proof.
  intros m1 app app'.
  destruct (debug_toggle_frame string string app eq_refl eq_refl)
    as (H0 & H1 & _).
  split_and!; [reflexivity|reflexivity|reflexivity|exact H0|exact H1].
Defined.

Lemma middleware_http_only_witness :
  let app :=
    (rebuild string string
       (init_attributes string string false None None None None None)).2 in
  "websocket" ≠ "http"
  ∧ middleware string string "websocket" app =
      (Raises middleware_error, app).
Proof.
  intros app.
  assert ("websocket" ≠ "http") as Hne by (intros [=]).
  split; [exact Hne|].
  exact (proj1 (middleware_http_only string string "websocket" app) Hne).
Defined.

Lemma call_injects_app_witness :
  let app :=
    (rebuild string string
       (init_attributes string string false None None None None None)).2 in
  let run (stack : ASGIApp string string) (scope : positive)
          (receive send : string) (h : Heap string string) := h in
  let scope0 : gmap string (ScopeValue string string) :=
    {[ "type" := SAny "http" ]} in
  let h : Heap string string := {[ 1%positive := scope0 ]} in
  h !! 1%positive = Some scope0
  ∧ ∃ h' : Heap string string,
      __call__ string string string string run app 1%positive "receive" "send" h
        = run (middleware_stack string string app) 1%positive
            "receive" "send" h'
      ∧ h' !! 1%positive = Some (<["app" := SApp app]> scope0).
Proof.
  intros app run scope0 h.
  assert (h !! 1%positive = Some scope0) as Hh by reflexivity.
  split; [exact Hh|].
  destruct (call_injects_app string string string string run app 1%positive
              "receive" "send" h scope0 Hh) as (h' & Hcall & Hscope & _).
  exists h'. split; [exact Hcall|exact Hscope].
Defined.

(** ** Further properties on concrete applications *)

Lemma mutators_commute_witness :
  let app :=
    (rebuild string string
       (init_attributes string string false None None None None None)).2 in
  ("app" ∉ keys (K:=string) (V:=OptionValue string string)
             [("level", VAny "9")])
  ∧ (add_exception_handler string string (StatusCode 404) "not_found"
       (add_middleware string string (UserMiddleware "GZip")
          [("level", VAny "9")] app).2).2 =
      (add_middleware string string (UserMiddleware "GZip")
         [("level", VAny "9")]
         (add_exception_handler string string (StatusCode 404) "not_found"
            app).2).2.
Proof.
  intros app.
  assert ("app" ∉ keys (K:=string) (V:=OptionValue string string)
            [("level", VAny "9")]) as Happ.
  { by_computation. }
  split; [exact Happ|].
  exact (proj1 (proj1 (mutators_commute string string (UserMiddleware "GZip")
                         [("level", VAny "9")] (StatusCode 404) "not_found"
                         true app) Happ)).
Defined.

Lemma debug_setter_round_trip_witness :
  let app :=
    (rebuild string string
       (init_attributes string string false None
          (Some [Middleware_init (UserMiddleware "GZip") []])
          (Some [(StatusCode 404, "not_found")]) None None)).2 in
  consistent string string app
  ∧ (debug_setter string string false
       (debug_setter string string true app).2).2 = app.
Proof.
  intros app.
  assert (consistent string string app) as Hc by reflexivity.
  split; [exact Hc|].
  exact (proj2 (proj2 (debug_setter_round_trip string string app true false)
                  Hc)).
Defined.

Lemma add_middleware_each_order_witness :
  let app :=
    (rebuild string string
       (init_attributes string string false None
          (Some [Middleware_init (UserMiddleware "Auth") []])
          None None None)).2 in
  let specs : list (MiddlewareClass * Options string string) :=
    [(UserMiddleware "Session", []);
     (UserMiddleware "GZip", [("level", VAny "9")])] in
  consistent string string app
  ∧ (add_middleware_each string string specs app).1 = Returns tt
  ∧ layers string string
      (middleware_stack string string
         (add_middleware_each string string specs app).2) =
      [(ServerErrorMiddleware, [("handler", VNone); ("debug", VBool false)]);
       (UserMiddleware "GZip", [("level", VAny "9")]);
       (UserMiddleware "Session", []);
       (UserMiddleware "Auth", []);
       (ExceptionMiddleware,
        [("handlers", VHandlers []); ("debug", VBool false)])].
Proof.
  intros app specs.
  assert (consistent string string app) as Hc by reflexivity.
  assert (Forall (fun spec : MiddlewareClass * Options string string =>
                    "app" ∉ keys spec.2) specs) as Hall.
  { repeat constructor; by_computation. }
  destruct (add_middleware_each_order string string specs app Hall Hc)
    as (Hret & _ & Hlayers).
  split_and!; [exact Hc|exact Hret|exact Hlayers].
Defined.

Lemma init_middleware_as_adds_witness :
  let specs : list (MiddlewareClass * Options string string) :=
    [(UserMiddleware "GZip", [("level", VAny "9")]);
     (UserMiddleware "Session", [])] in
  ∃ app,
    __init__ string string false None
      (Some (spec_of string string <$> specs)) None None None = Returns app
    ∧ init_then string string
        (__init__ string string false None None None None None)
        (add_middleware_each string string (rev specs)) = Returns app.
Proof.
  intros specs.
  apply (init_middleware_as_adds string string false None specs None None None).
  repeat constructor; by_computation.
Defined.

Lemma add_exception_handler_typed_witness :
  let app :=
    (rebuild string string
       (init_attributes string string false None None
          (Some [(StatusCode 500, "on_500"); (StatusCode 404, "not_found")])
          None None)).2 in
  let app' :=
    (add_exception_handler string string (StatusCode 403) "forbidden" app).2 in
  wf (exception_handlers string string app)
  ∧ key_in (StatusCode 403) server_error_keys = false
  ∧ get (StatusCode 403)
      (partition_handlers string (exception_handlers string string app')).2
      = Some "forbidden"
  ∧ last (layers string string (middleware_stack string string app')) =
      Some (ExceptionMiddleware,
            [("handlers",
              VHandlers [(StatusCode 404, "not_found");
                         (StatusCode 403, "forbidden")]);
             ("debug", VBool false)]).
Proof.
  intros app app'.
  assert (wf (exception_handlers string string app)) as Hwf
    by by_computation.
  destruct (add_exception_handler_typed string string (StatusCode 403)
              "forbidden" app Hwf eq_refl) as (Hget & _ & _ & Hlast).
  split_and!; [exact Hwf|reflexivity|exact Hget|exact (Hlast eq_refl)].
Defined.

Lemma add_exception_handler_server_error_witness :
  let app :=
    (rebuild string string
       (init_attributes string string true None None
          (Some [(StatusCode 404, "not_found"); (StatusCode 500, "old_500")])
          None None)).2 in
  let app' :=
    (add_exception_handler string string (StatusCode 500) "on_500" app).2 in
  wf (exception_handlers string string app)
  ∧ head (layers string string (middleware_stack string string app')) =
      Some (ServerErrorMiddleware,
            [("handler", VCallable "on_500"); ("debug", VBool true)]).
Proof.
  intros app app'.
  assert (wf (exception_handlers string string app)) as Hwf
    by by_computation.
  split; [exact Hwf|].
  refine (proj2 (proj2 (add_exception_handler_server_error string string
                          (StatusCode 500) "on_500" app Hwf eq_refl _))
            eq_refl).
  intros key' Hkey' Hne. apply key_in_server_error_keys in Hkey'.
  destruct Hkey' as [-> | ->]; [by destruct Hne|reflexivity].
Defined.

Lemma reregister_shadowed_server_error_key_witness :
  let app :=
    (rebuild string string
       (init_attributes string string false None None
          (Some [(StatusCode 500, "on_500");
                 (ExcClass Exception, "on_exception")])
          None None)).2 in
  let app' :=
    (add_exception_handler string string (StatusCode 500) "new_500" app).2 in
  wf (exception_handlers string string app)
  ∧ get (StatusCode 500) (exception_handlers string string app') =
      Some "new_500"
  ∧ middleware_stack string string app' = middleware_stack string string app
  ∧ head (layers string string (middleware_stack string string app')) =
      Some (ServerErrorMiddleware,
            [("handler", VCallable "on_exception"); ("debug", VBool false)]).
Proof.
  intros app app'.
  assert (wf (exception_handlers string string app)) as Hwf
    by by_computation.
  destruct (reregister_shadowed_server_error_key string string app
              [] [] [] (StatusCode 500) (ExcClass Exception)
              "on_500" "on_exception" "new_500"
              eq_refl eq_refl Hwf eq_refl eq_refl)
    as (_ & Hget & Hstack & Hhead).
  split_and!; [exact Hwf|exact Hget|exact Hstack|exact Hhead].
Defined.

Lemma reachable_stack_shape_witness :
  let app0 :=
    (rebuild string string
       (init_attributes string string false None None None None None)).2 in
  let app1 := (add_exception_handler string string (StatusCode 404)
                 "not_found" app0).2 in
  let app2 := (add_exception_handler string string (ExcClass Exception)
                 "on_exception" app1).2 in
  let app3 := (add_middleware string string (UserMiddleware "GZip") []
                 app2).2 in
  reachable string string app3
  ∧ layers string string (middleware_stack string string app3) =
      [(ServerErrorMiddleware,
        [("handler", VCallable "on_exception"); ("debug", VBool false)]);
       (UserMiddleware "GZip", []);
       (ExceptionMiddleware,
        [("handlers", VHandlers [(StatusCode 404, "not_found")]);
         ("debug", VBool false)])].
Proof.
  intros app0 app1 app2 app3.
  assert (reachable string string app3) as Hr.
  { apply (reachable_add_middleware string string (UserMiddleware "GZip") []
             app2).
    apply (reachable_add_exception_handler string string (ExcClass Exception)
             "on_exception" app1).
    apply (reachable_add_exception_handler string string (StatusCode 404)
             "not_found" app0).
    by apply (reachable_init string string false None None None None None). }
  split; [exact Hr|].
  refine (proj1 (reachable_stack_shape string string app3 Hr _)).
  repeat constructor. intros _. by_computation.
Defined.

Lemma add_middleware_app_keyword_witness :
  let app :=
    (rebuild string string
       (init_attributes string string false None None None None None)).2 in
  let kwargs : Options string string := [("app", VAny "x")] in
  let app' :=
    (add_middleware string string (UserMiddleware "GZip") kwargs app).2 in
  "app" ∈ keys kwargs
  ∧ (add_middleware string string (UserMiddleware "GZip") kwargs app).1 =
      Raises (PyTypeError "app")
  ∧ user_middleware string string app' =
      [Middleware_init (UserMiddleware "GZip") kwargs]
  ∧ layers string string (middleware_stack string string app') =
      [(ServerErrorMiddleware, [("handler", VNone); ("debug", VBool false)]);
       (ExceptionMiddleware,
        [("handlers", VHandlers []); ("debug", VBool false)])]
  ∧ (debug_setter string string true app').1 = Raises (PyTypeError "app").
Proof.
  intros app kwargs app'.
  assert ("app" ∈ keys kwargs) as Happ
    by by_computation.
  destruct (add_middleware_app_keyword string string (UserMiddleware "GZip")
              kwargs app Happ) as (Hadd & _ & _ & Hdebug & _).
  split_and!; [exact Happ| |reflexivity|reflexivity|exact (proj1 (Hdebug true))].
  by rewrite Hadd.
Defined.
